(** * X×Y combination generator (app.py): list resolution and the run loop

    A shallow embedding of the testable logic of [src/app.py]:

    - Python [str] values are sequences of Unicode code points, here
      [list N]; [str.strip], [str.splitlines] and [str.replace] are written
      out with CPython's whitespace and line-boundary tables;
    - [json.loads] is the decoder of CPython's [json] package, over a type
      of JSON-like Python values;
    - [list_gen], the manual list comprehension, the empty-list guard and
      the nested run loop are state-passing computations over a trace of
      observable events (backend requests and UI calls), with an outcome
      that is a value, a raised exception or [st.stop()]. *)

From Stdlib Require Import String Ascii.
From Stdlib Require Import List NArith ZArith Bool Arith Lia.
From Stdlib Require DecimalN.
Import ListNotations.
Local Open Scope list_scope.

Set Implicit Arguments.
Set Warnings "-register-all".

(** ** Python strings *)

Module Py.

(** A [str] is a sequence of code points. *)
Definition pystr := list N.

(** ASCII literal to [str]. *)
Definition lit (s : String.string) : pystr :=
  map Ascii.N_of_ascii (String.list_ascii_of_string s).
Arguments lit s%_string.

(** ASCII literal in which every apostrophe stands for a double quote
    (code point 34), for writing JSON texts. *)
Definition jlit (s : String.string) : pystr :=
  map (fun c => if N.eqb c 39 then 34%N else c) (lit s).
Arguments jlit s%_string.

Definition str_eqb (a b : pystr) : bool :=
  if list_eq_dec N.eq_dec a b then true else false.

(** Truthiness of a [str]: non-empty. *)
Definition truthy (s : pystr) : bool :=
  match s with [] => false | _ :: _ => true end.

(** [Py_UNICODE_ISSPACE]: the characters removed by [str.strip()]. *)
Definition isspace (c : N) : bool :=
  ((9 <=? c) && (c <=? 13) || (28 <=? c) && (c <=? 32)
   || (c =? 133) || (c =? 160) || (c =? 5760)
   || (8192 <=? c) && (c <=? 8202)
   || (c =? 8232) || (c =? 8233) || (c =? 8239) || (c =? 8287)
   || (c =? 12288))%N.

(** [Py_UNICODE_ISLINEBREAK]: the line boundaries of [str.splitlines()]. *)
Definition islinebreak (c : N) : bool :=
  ((10 <=? c) && (c <=? 13) || (28 <=? c) && (c <=? 30)
   || (c =? 133) || (c =? 8232) || (c =? 8233))%N.

Fixpoint lstrip_by (p : N -> bool) (s : pystr) : pystr :=
  match s with
  | [] => []
  | c :: s' => if p c then lstrip_by p s' else s
  end.

Definition rstrip_by (p : N -> bool) (s : pystr) : pystr :=
  rev (lstrip_by p (rev s)).

Definition strip_by (p : N -> bool) (s : pystr) : pystr :=
  rstrip_by p (lstrip_by p s).

(** [s.strip()] *)
Definition strip (s : pystr) : pystr := strip_by isspace s.

(** [s.strip(chars)] *)
Definition strip_chars (chars s : pystr) : pystr :=
  strip_by (fun c => existsb (N.eqb c) chars) s.

(** [s.splitlines()]: [cur] is the current line, reversed.  A carriage
    return followed by a line feed is one boundary, and there is no empty
    last line after a final boundary. *)
Fixpoint splitlines_from (cur s : pystr) : list pystr :=
  match s with
  | [] => match cur with [] => [] | _ :: _ => [rev cur] end
  | c :: s' =>
      if islinebreak c then
        rev cur ::
          match s' with
          | d :: s'' =>
              if (c =? 13)%N && (d =? 10)%N then splitlines_from [] s''
              else splitlines_from [] s'
          | [] => splitlines_from [] s'
          end
      else splitlines_from (c :: cur) s'
  end.

Definition splitlines (s : pystr) : list pystr := splitlines_from [] s.

Fixpoint starts_with (p s : pystr) : bool :=
  match p, s with
  | [], _ => true
  | _ :: _, [] => false
  | a :: p', b :: s' => (a =? b)%N && starts_with p' s'
  end.

(** [s.replace(old, new)] for a non-empty [old]: occurrences are found left
    to right and do not overlap; [skip] counts the characters of a match
    still to be passed over. *)
Fixpoint replace_from (old new : pystr) (skip : nat) (s : pystr) : pystr :=
  match s with
  | [] => []
  | c :: s' =>
      match skip with
      | S k => replace_from old new k s'
      | O =>
          if starts_with old s
          then new ++ replace_from old new (pred (length old)) s'
          else c :: replace_from old new 0 s'
      end
  end.

(** [s.replace(old, new)]; an empty [old] matches before every character
    and at the end. *)
Definition replace (s old new : pystr) : pystr :=
  match old with
  | [] => new ++ flat_map (fun c => c :: new) s
  | _ :: _ => replace_from old new 0 s
  end.

(** [sep.join(parts)] *)
Fixpoint join (sep : pystr) (parts : list pystr) : pystr :=
  match parts with
  | [] => []
  | [p] => p
  | p :: ps => p ++ sep ++ join sep ps
  end.

End Py.

(** ** Python values and exceptions *)

Module PyVal.
Import Py.

(** The values a structured response can hold: what [json.loads] returns
    and what the SDK stores in [.parsed].  A [float] is given by its [repr]
    ([float.__repr__] is injective up to the payload of a NaN); a [dict] by
    its items in insertion order. *)
Inductive pyval : Type :=
| PNone
| PBool (b : bool)
| PInt (z : Z)
| PFloat (r : pystr)
| PStr (s : pystr)
| PList (l : list pyval)
| PDict (items : list (pystr * pyval)).

(** [isinstance(v, list)] *)
Definition isinstance_list (v : pyval) : bool :=
  match v with PList _ => true | _ => false end.

(** The two conversions that need floating point or the Unicode character
    database are parameters of the model:
    - [float_of_literal lexeme] is [repr(float(lexeme))] for a JSON number
      lexeme with a fraction or an exponent;
    - [str_repr s] is [repr(s)] for a [str] (its quoting and escaping follow
      the table of printable characters). *)
Record builtins : Type := {
  float_of_literal : pystr -> pystr;
  str_repr : pystr -> pystr
}.

Fixpoint uint_digits (u : Decimal.uint) : pystr :=
  match u with
  | Decimal.Nil => []
  | Decimal.D0 u => 48%N :: uint_digits u
  | Decimal.D1 u => 49%N :: uint_digits u
  | Decimal.D2 u => 50%N :: uint_digits u
  | Decimal.D3 u => 51%N :: uint_digits u
  | Decimal.D4 u => 52%N :: uint_digits u
  | Decimal.D5 u => 53%N :: uint_digits u
  | Decimal.D6 u => 54%N :: uint_digits u
  | Decimal.D7 u => 55%N :: uint_digits u
  | Decimal.D8 u => 56%N :: uint_digits u
  | Decimal.D9 u => 57%N :: uint_digits u
  end.

(** [str(z)] for an [int] (the interpreter's limit on the number of digits
    of a conversion is not modelled). *)
Definition str_of_int (z : Z) : pystr :=
  if (z <? 0)%Z then 45%N :: uint_digits (N.to_uint (Z.abs_N z))
  else uint_digits (N.to_uint (Z.to_N z)).

(** [repr(v)] *)
Fixpoint py_repr (B : builtins) (v : pyval) : pystr :=
  match v with
  | PNone => lit "None"
  | PBool true => lit "True"
  | PBool false => lit "False"
  | PInt z => str_of_int z
  | PFloat r => r
  | PStr s => str_repr B s
  | PList l => lit "[" ++ join (lit ", ") (map (py_repr B) l) ++ lit "]"
  | PDict items =>
      lit "{"
      ++ join (lit ", ")
           (map (fun kv => match kv with
                           | (k, x) => str_repr B k ++ lit ": " ++ py_repr B x
                           end) items)
      ++ lit "}"
  end.

(** [str(v)] *)
Definition py_str (B : builtins) (v : pyval) : pystr :=
  match v with
  | PStr s => s
  | _ => py_repr B v
  end.

Inductive exn : Type :=
| TypeError
| JSONDecodeError
| BackendError (detail : pystr).

(** How a computation ends: with a value, with a raised exception, or with
    Streamlit's [st.stop()]. *)
Inductive outcome (A : Type) : Type :=
| Ok (a : A)
| Raise (e : exn)
| Stop.
Arguments Ok {A} a.
Arguments Raise {A} e.
Arguments Stop {A}.

End PyVal.

(** ** [json.loads] *)

Module Json.
Import Py PyVal.

(** [WHITESPACE = re.compile(r'[ \t\n\r]*')] *)
Definition is_ws (c : N) : bool :=
  ((c =? 32) || (c =? 9) || (c =? 10) || (c =? 13))%N.

Definition skip_ws (s : pystr) : pystr := lstrip_by is_ws s.

Definition is_digit (c : N) : bool := ((48 <=? c) && (c <=? 57))%N.

Definition hex_digit (c : N) : option N :=
  if is_digit c then Some (c - 48)%N
  else if ((97 <=? c) && (c <=? 102))%N then Some (c - 87)%N
  else if ((65 <=? c) && (c <=? 70))%N then Some (c - 55)%N
  else None.

Definition hex4 (a b c d : N) : option N :=
  match hex_digit a, hex_digit b, hex_digit c, hex_digit d with
  | Some x, Some y, Some z, Some w => Some (((x * 16 + y) * 16 + z) * 16 + w)%N
  | _, _, _, _ => None
  end.

(** The [BACKSLASH] table of simple escapes. *)
Definition backslash (e : N) : option N :=
  if (e =? 34)%N then Some 34%N
  else if (e =? 92)%N then Some 92%N
  else if (e =? 47)%N then Some 47%N
  else if (e =? 98)%N then Some 8%N
  else if (e =? 102)%N then Some 12%N
  else if (e =? 110)%N then Some 10%N
  else if (e =? 114)%N then Some 13%N
  else if (e =? 116)%N then Some 9%N
  else None.

Definition is_high_surrogate (u : N) : bool := ((55296 <=? u) && (u <=? 56319))%N.
Definition is_low_surrogate (u : N) : bool := ((56320 <=? u) && (u <=? 57343))%N.
Definition join_surrogates (hi lo : N) : N :=
  (65536 + ((hi - 55296) * 1024 + (lo - 56320)))%N.

(** [scanstring] in strict mode, from just after the opening quote: the
    decoded string and the input after the closing quote.  [None] is a
    [JSONDecodeError] (unterminated string, control character, invalid
    escape).  [acc] is the decoded prefix, reversed.  This is the scanner
    of the C accelerator, which accepts only hexadecimal digits in a
    [\uXXXX] escape. *)
Fixpoint scanstring (acc s : pystr) : option (pystr * pystr) :=
  match s with
  | [] => None
  | c :: s1 =>
      if (c =? 34)%N then Some (rev acc, s1)
      else if (c <? 32)%N then None
      else if negb (c =? 92)%N then scanstring (c :: acc) s1
      else
        match s1 with
        | [] => None
        | e :: s2 =>
            if negb (e =? 117)%N then
              match backslash e with
              | Some ch => scanstring (ch :: acc) s2
              | None => None
              end
            else
              match s2 with
              | h1 :: h2 :: h3 :: h4 :: s3 =>
                  match hex4 h1 h2 h3 h4 with
                  | None => None
                  | Some uni =>
                      if is_high_surrogate uni then
                        match s3 with
                        | b :: u :: k1 :: k2 :: k3 :: k4 :: s4 =>
                            if ((b =? 92) && (u =? 117))%N then
                              match hex4 k1 k2 k3 k4 with
                              | None => None
                              | Some uni2 =>
                                  if is_low_surrogate uni2
                                  then scanstring (join_surrogates uni uni2 :: acc) s4
                                  else scanstring (uni :: acc) s3
                              end
                            else scanstring (uni :: acc) s3
                        | _ => scanstring (uni :: acc) s3
                        end
                      else scanstring (uni :: acc) s3
                  end
              | _ => None
              end
        end
  end.

(** The longest prefix of digits, and the rest. *)
Fixpoint span_digits (s : pystr) : pystr * pystr :=
  match s with
  | c :: s' =>
      if is_digit c then let (ds, r) := span_digits s' in (c :: ds, r)
      else ([], s)
  | [] => ([], [])
  end.

(** [NUMBER_RE] matched at the head of the input, one definition per
    group, each with the rest of the input; an absent optional group is
    empty.  The integer group is an optional minus sign, then either a
    single 0 or a digit from 1 to 9 followed by any digits; the fraction
    group is a dot and at least one digit; the exponent group is e or E, an
    optional sign and at least one digit. *)
Definition match_integer (s : pystr) : option (pystr * pystr) :=
  let (sign, s1) := match s with
                    | c :: r => if (c =? 45)%N then ([45%N], r) else ([], s)
                    | [] => ([], s)
                    end in
  match s1 with
  | c :: r =>
      if (c =? 48)%N then Some (sign ++ [c], r)
      else if is_digit c then
        let (ds, r') := span_digits r in Some (sign ++ c :: ds, r')
      else None
  | [] => None
  end.

Definition match_frac (s : pystr) : pystr * pystr :=
  match s with
  | c :: r =>
      if (c =? 46)%N then
        match span_digits r with
        | ([], _) => ([], s)
        | (ds, r') => (c :: ds, r')
        end
      else ([], s)
  | [] => ([], s)
  end.

Definition match_exp (s : pystr) : pystr * pystr :=
  match s with
  | c :: r =>
      if ((c =? 101) || (c =? 69))%N then
        let (sign, r1) := match r with
                          | d :: r0 =>
                              if ((d =? 45) || (d =? 43))%N then ([d], r0)
                              else ([], r)
                          | [] => ([], r)
                          end in
        match span_digits r1 with
        | ([], _) => ([], s)
        | (ds, r') => (c :: sign ++ ds, r')
        end
      else ([], s)
  | [] => ([], s)
  end.

Definition digits_value (ds : pystr) : Z :=
  fold_left (fun acc c => (acc * 10 + Z.of_N (c - 48))%Z) ds 0%Z.

(** [int(lexeme)] for a matched integer group. *)
Definition int_of_literal (lexeme : pystr) : Z :=
  match lexeme with
  | c :: ds => if (c =? 45)%N then (- digits_value ds)%Z else digits_value lexeme
  | [] => 0%Z
  end.

Definition match_number (B : builtins) (s : pystr) : option (pyval * pystr) :=
  match match_integer s with
  | None => None
  | Some (integer, r1) =>
      let (frac, r2) := match_frac r1 in
      let (exp, r3) := match_exp r2 in
      if truthy frac || truthy exp
      then Some (PFloat (float_of_literal B (integer ++ frac ++ exp)), r3)
      else Some (PInt (int_of_literal integer), r3)
  end.

(** [dict(pairs)]: a repeated key keeps its first position and takes the
    last value. *)
Fixpoint dict_set (k : pystr) (v : pyval) (d : list (pystr * pyval))
  : list (pystr * pyval) :=
  match d with
  | [] => [(k, v)]
  | (k', v') :: d' =>
      if str_eqb k k' then (k, v) :: d' else (k', v') :: dict_set k v d'
  end.

Definition dict_of_pairs (pairs : list (pystr * pyval)) : list (pystr * pyval) :=
  fold_left (fun d kv => dict_set (fst kv) (snd kv) d) pairs [].

(** [scan_once], [JSONArray] and [JSONObject].  Each returns the decoded
    value and the rest of the input; [None] is a [JSONDecodeError] (or, when
    [fuel] runs out, the interpreter's [RecursionError]; [json_loads] below
    gives enough fuel for the whole text).  [array_items] starts at a value
    of the array, [object_items] just after the opening quote of a key;
    both carry the items read so far, reversed. *)
Fixpoint scan_once (B : builtins) (fuel : nat) (s : pystr) {struct fuel}
  : option (pyval * pystr) :=
  match fuel with
  | O => None
  | S f =>
      match s with
      | [] => None
      | c :: r =>
          if (c =? 34)%N then
            match scanstring [] r with
            | Some (str, r') => Some (PStr str, r')
            | None => None
            end
          else if (c =? 123)%N then
            match skip_ws r with
            | d :: r1 =>
                if (d =? 125)%N then Some (PDict [], r1)
                else if (d =? 34)%N then object_items B f r1 []
                else None
            | [] => None
            end
          else if (c =? 91)%N then
            match skip_ws r with
            | d :: r1 =>
                if (d =? 93)%N then Some (PList [], r1)
                else array_items B f (d :: r1) []
            | [] => None
            end
          else if starts_with (lit "null") s then Some (PNone, skipn 4 s)
          else if starts_with (lit "true") s then Some (PBool true, skipn 4 s)
          else if starts_with (lit "false") s then Some (PBool false, skipn 5 s)
          else
            match match_number B s with
            | Some res => Some res
            | None =>
                if starts_with (lit "NaN") s
                then Some (PFloat (lit "nan"), skipn 3 s)
                else if starts_with (lit "Infinity") s
                then Some (PFloat (lit "inf"), skipn 8 s)
                else if starts_with (lit "-Infinity") s
                then Some (PFloat (lit "-inf"), skipn 9 s)
                else None
            end
      end
  end

with array_items (B : builtins) (fuel : nat) (s : pystr) (acc : list pyval)
  {struct fuel} : option (pyval * pystr) :=
  match fuel with
  | O => None
  | S f =>
      match scan_once B f s with
      | None => None
      | Some (v, s1) =>
          match skip_ws s1 with
          | d :: s2 =>
              if (d =? 93)%N then Some (PList (rev (v :: acc)), s2)
              else if (d =? 44)%N then array_items B f (skip_ws s2) (v :: acc)
              else None
          | [] => None
          end
      end
  end

with object_items (B : builtins) (fuel : nat) (s : pystr)
  (acc : list (pystr * pyval)) {struct fuel} : option (pyval * pystr) :=
  match fuel with
  | O => None
  | S f =>
      match scanstring [] s with
      | None => None
      | Some (key, s1) =>
          match skip_ws s1 with
          | c :: s2 =>
              if negb (c =? 58)%N then None
              else
                match scan_once B f (skip_ws s2) with
                | None => None
                | Some (v, s3) =>
                    match skip_ws s3 with
                    | d :: s4 =>
                        if (d =? 125)%N
                        then Some (PDict (dict_of_pairs (rev ((key, v) :: acc))), s4)
                        else if (d =? 44)%N then
                          match skip_ws s4 with
                          | q :: s5 =>
                              if (q =? 34)%N
                              then object_items B f s5 ((key, v) :: acc)
                              else None
                          | [] => None
                          end
                        else None
                    | [] => None
                    end
                end
          | [] => None
          end
      end
  end.

(** [json.loads(text)].  [resp.text] is a [str] or [None]; [None] is not a
    [str], [bytes] or [bytearray], which is a [TypeError].  A text that
    starts with a byte-order mark, that holds no value, or that holds
    anything but whitespace after the value is a [JSONDecodeError]. *)
Definition json_loads (B : builtins) (text : option pystr) : outcome pyval :=
  match text with
  | None => Raise TypeError
  | Some s =>
      if starts_with [65279%N] s then Raise JSONDecodeError
      else
        match scan_once B (2 * length s + 2) (skip_ws s) with
        | None => Raise JSONDecodeError
        | Some (v, rest) =>
            match skip_ws rest with
            | [] => Ok v
            | _ :: _ => Raise JSONDecodeError
            end
        end
  end.

End Json.

(** ** The application *)

Module App.
Import Py PyVal Json.

(** *** The backend and the trace of observable events *)

(** The two configurations [generate_content] is called with: the Google
    Search grounding tool ([gen_config]) in [gen_response], and the JSON
    list schema in [list_gen]. *)
Inductive gen_config : Type := CfgGrounding | CfgJsonList.

Record request : Type := {
  req_model : pystr;
  req_contents : pystr;
  req_config : gen_config
}.

(** A response: [.text] is a [str] or [None]; [.parsed] may be missing
    ([None] here), in which case [getattr(resp, "parsed", None)] is the
    Python [None]. *)
Record response : Type := {
  resp_parsed : option pyval;
  resp_text : option pystr
}.

Inductive reply : Type :=
| Reply (r : response)
| Fail (detail : pystr).

(** The client: what the backend answers to the [n]-th request of the
    session (counted from 0), given the request. *)
Definition client : Type := nat -> request -> reply.

(** A rendered combination: the locals of the loop body at the point where
    the result block is written. *)
Record CombinationResult : Type := {
  cr_x : pystr;
  cr_y : pystr;
  cr_query : pystr;
  cr_answer : pystr
}.

(** Observable events, in program order.  [EvResult xi yi r] is the result
    block of one pair: the [#### Y = ...] heading, [st.write] of the answer
    (or of the placeholder when it is empty) and the copy button
    [copy_xi_yi] whose payload is [json.dumps] of the answer.
    [EvProgress done total] is [progress.progress(int(done / total * 100))];
    the percentage is floating-point arithmetic and is left symbolic.
    Spinners are transient and not recorded. *)
Inductive event : Type :=
| EvRequest (q : request)
| EvErrorNoKey
| EvWarningEmptyList
| EvSuccessCounts (nx ny : nat)
| EvRule
| EvProgressBar
| EvHeadingX (x : pystr)
| EvResult (xi yi : nat) (r : CombinationResult)
| EvProgress (done total : nat)
| EvSuccessDone
| EvBalloons.

Definition trace : Type := list event.

(** Number of backend requests in a trace. *)
Fixpoint ncalls (t : trace) : nat :=
  match t with
  | [] => 0
  | EvRequest _ :: t' => S (ncalls t')
  | _ :: t' => ncalls t'
  end.

(** A computation reads the trace so far and returns its outcome and the
    extended trace. *)
Definition M (A : Type) : Type := trace -> outcome A * trace.

Definition ret {A} (a : A) : M A := fun t => (Ok a, t).

Definition bind {A B} (m : M A) (k : A -> M B) : M B :=
  fun t =>
    match m t with
    | (Ok a, t') => k a t'
    | (Raise e, t') => (Raise e, t')
    | (Stop, t') => (Stop, t')
    end.

Definition emit (e : event) : M unit := fun t => (Ok tt, t ++ [e]).

(** [st.stop()] *)
Definition st_stop {A} : M A := fun t => (Stop, t).

Definition lift {A} (o : outcome A) : M A := fun t => (o, t).

Notation "x <- m ;; k" := (bind m (fun x => k))
  (at level 61, m at next level, right associativity).
Notation "m ;;; k" := (bind m (fun _ => k))
  (at level 61, right associativity).

(** [client.models.generate_content(model=..., contents=..., config=...)]:
    the request is sent, and a failure of the call is raised. *)
Definition generate_content (c : client) (q : request) : M response :=
  fun t =>
    match c (ncalls t) q with
    | Reply r => (Ok r, t ++ [EvRequest q])
    | Fail d => (Raise (BackendError d), t ++ [EvRequest q])
    end.

(** [resp.text or ""] *)
Definition text_or_empty (r : response) : pystr :=
  match resp_text r with
  | Some s => if truthy s then s else []
  | None => []
  end.

(** *** [gen_response] *)

Definition gen_response (c : client) (model_name question : pystr) : M pystr :=
  resp <- generate_content c
            {| req_model := model_name; req_contents := question;
               req_config := CfgGrounding |} ;;
  ret (strip (text_or_empty resp)).

(** *** [list_gen] *)

(** [[str(x).strip() for x in data if str(x).strip()]] *)
Fixpoint stripped_items (B : builtins) (data : list pyval) : list pystr :=
  match data with
  | [] => []
  | x :: data' =>
      if truthy (strip (py_str B x))
      then strip (py_str B x) :: stripped_items B data'
      else stripped_items B data'
  end.

(** [[ln.strip("-• \t") for ln in text.splitlines() if ln.strip()]]; the
    characters to strip are the hyphen, the bullet U+2022, the space and
    the tab. *)
Definition bullet_chars : pystr := [45; 8226; 32; 9]%N.

Fixpoint bullet_lines (lines : list pystr) : list pystr :=
  match lines with
  | [] => []
  | ln :: lines' =>
      if truthy (strip ln)
      then strip_chars bullet_chars ln :: bullet_lines lines'
      else bullet_lines lines'
  end.

(** [try: body except Exception: pass], for a body that either returns
    from the enclosing function ([Some]), falls through ([None]) or
    raises. *)
Definition try_except_pass {A} (body : outcome (option A)) : option A :=
  match body with
  | Ok r => r
  | Raise _ => None
  | Stop => None
  end.

Definition getattr_parsed (r : response) : pyval :=
  match resp_parsed r with
  | Some v => v
  | None => PNone
  end.

(** The body of [list_gen] after the backend call. *)
Definition list_of_response (B : builtins) (resp : response)
  : outcome (list pystr) :=
  let data := getattr_parsed resp in
  match data with
  | PList items => Ok (stripped_items B items)
  | _ =>
      match try_except_pass
              (match json_loads B (resp_text resp) with
               | Ok parsed =>
                   match parsed with
                   | PList items => Ok (Some (stripped_items B items))
                   | _ => Ok None
                   end
               | Raise e => Raise e
               | Stop => Stop
               end) with
      | Some l => Ok l
      | None =>
          let text := strip (text_or_empty resp) in
          let lines := bullet_lines (splitlines text) in
          Ok lines
      end
  end.

Definition list_gen (B : builtins) (c : client) (model_name prompt : pystr)
  : M (list pystr) :=
  resp <- generate_content c
            {| req_model := model_name; req_contents := prompt;
               req_config := CfgJsonList |} ;;
  lift (list_of_response B resp).

(** *** Manual mode *)

(** [[ln.strip() for ln in lines if ln.strip()]] *)
Fixpoint stripped_lines (lines : list pystr) : list pystr :=
  match lines with
  | [] => []
  | ln :: lines' =>
      if truthy (strip ln) then strip ln :: stripped_lines lines'
      else stripped_lines lines'
  end.

Definition manual_list (text : pystr) : list pystr :=
  stripped_lines (splitlines text).

(** *** The run *)

(** [question_template.replace("X", x_word).replace("Y", y_word)] *)
Definition build_query (question_template x_word y_word : pystr) : pystr :=
  replace (replace question_template (lit "X") x_word) (lit "Y") y_word.

(** [enumerate(l)] *)
Definition enumerate {A} (l : list A) : list (nat * A) :=
  combine (seq 0 (length l)) l.

(** The inner [for yi, y_word in enumerate(Y_list)] loop, over the pairs
    still to come; [done] is threaded through. *)
Fixpoint y_loop (c : client) (model_name question_template : pystr)
  (total xi : nat) (x_word : pystr) (ys : list (nat * pystr)) (done : nat)
  : M nat :=
  match ys with
  | [] => ret done
  | (yi, y_word) :: ys' =>
      let query := build_query question_template x_word y_word in
      answer <- gen_response c model_name query ;;
      emit (EvResult xi yi
              {| cr_x := x_word; cr_y := y_word;
                 cr_query := query; cr_answer := answer |}) ;;;
      let done := S done in
      emit (EvProgress done total) ;;;
      y_loop c model_name question_template total xi x_word ys' done
  end.

(** The outer [for xi, x_word in enumerate(X_list)] loop. *)
Fixpoint x_loop (c : client) (model_name question_template : pystr)
  (total : nat) (Y_list : list pystr) (xs : list (nat * pystr)) (done : nat)
  : M nat :=
  match xs with
  | [] => ret done
  | (xi, x_word) :: xs' =>
      emit (EvHeadingX x_word) ;;;
      done <- y_loop c model_name question_template total xi x_word
                (enumerate Y_list) done ;;
      x_loop c model_name question_template total Y_list xs' done
  end.

(** The combination runner: from [total = len(X_list) * len(Y_list)] to
    the end of the loops.  Returns the final value of [done]. *)
Definition run_combinations (c : client) (model_name question_template : pystr)
  (X_list Y_list : list pystr) : M nat :=
  let total := length X_list * length Y_list in
  emit EvProgressBar ;;;
  let done := 0 in
  x_loop c model_name question_template total Y_list (enumerate X_list) done.

(** The sidebar mode with the text areas that exist in that mode. *)
Inductive mode : Type :=
| ModeGenerated (x_topics y_topics : pystr)
| ModeManual (x_manual y_manual : pystr).

(** What the widgets hold when the script runs: [api_key] is the key
    after the fallback to the secret store, [run] is the start button. *)
Record inputs : Type := {
  api_key : pystr;
  model_name : pystr;
  list_mode : mode;
  question_template : pystr;
  run : bool
}.

(** Truthiness of a list: non-empty. *)
Definition list_truthy {A} (l : list A) : bool :=
  match l with [] => false | _ :: _ => true end.

(** [make_client]: the session's backend once the key is known. *)
Definition make_client (backend : client) (_api_key : pystr) : M client :=
  if truthy _api_key then ret backend else st_stop.

(** Resolution of [X_list] and [Y_list]. *)
Definition resolve_lists (B : builtins) (c : client) (i : inputs)
  : M (list pystr * list pystr) :=
  match list_mode i with
  | ModeGenerated x_topics y_topics =>
      X_list <- list_gen B c (model_name i) x_topics ;;
      Y_list <- list_gen B c (model_name i) y_topics ;;
      ret (X_list, Y_list)
  | ModeManual x_manual y_manual =>
      ret (manual_list x_manual, manual_list y_manual)
  end.

(** The [if run:] block. *)
Definition app_run (B : builtins) (backend : client) (i : inputs) : M unit :=
  if run i then
    (if truthy (api_key i) then ret tt else (emit EvErrorNoKey ;;; st_stop)) ;;;
    c <- make_client backend (api_key i) ;;
    lists <- resolve_lists B c i ;;
    let (X_list, Y_list) := lists in
    (if negb (list_truthy X_list) || negb (list_truthy Y_list)
     then emit EvWarningEmptyList ;;; st_stop
     else ret tt) ;;;
    emit (EvSuccessCounts (length X_list) (length Y_list)) ;;;
    emit EvRule ;;;
    run_combinations c (model_name i) (question_template i) X_list Y_list ;;;
    emit EvSuccessDone ;;;
    emit EvBalloons
  else ret tt.

(** *** Projections of a trace *)

Fixpoint results_of (t : trace) : list CombinationResult :=
  match t with
  | [] => []
  | EvResult _ _ r :: t' => r :: results_of t'
  | _ :: t' => results_of t'
  end.

Fixpoint requests_of (t : trace) : list request :=
  match t with
  | [] => []
  | EvRequest q :: t' => q :: requests_of t'
  | _ :: t' => requests_of t'
  end.

Fixpoint progress_of (t : trace) : list (nat * nat) :=
  match t with
  | [] => []
  | EvProgress d n :: t' => (d, n) :: progress_of t'
  | _ :: t' => progress_of t'
  end.

(** Indices of the copy buttons of the rendered results. *)
Fixpoint result_ids_of (t : trace) : list (nat * nat) :=
  match t with
  | [] => []
  | EvResult xi yi _ :: t' => (xi, yi) :: result_ids_of t'
  | _ :: t' => result_ids_of t'
  end.

(** The requests of [gen_response], one per pair. *)
Definition is_grounding (q : request) : bool :=
  match req_config q with CfgGrounding => true | CfgJsonList => false end.

Definition pair_calls_of (t : trace) : list request :=
  filter is_grounding (requests_of t).

(** *** The run as a flat sequence of steps *)

(** The request [gen_response] sends for a pair. *)
Definition pair_request (model_name question_template : pystr)
  (xy : pystr * pystr) : request :=
  {| req_model := model_name;
     req_contents := build_query question_template (fst xy) (snd xy);
     req_config := CfgGrounding |}.

(** The answer [gen_response] returns for a reply. *)
Definition answer_of (rp : reply) : pystr :=
  match rp with
  | Reply r => strip (text_or_empty r)
  | Fail _ => []
  end.

(** The results of a list of pairs whose requests are the [n]-th and
    following ones of the session. *)
Fixpoint results_from (c : client) (model_name question_template : pystr)
  (n : nat) (pairs : list (pystr * pystr)) : list CombinationResult :=
  match pairs with
  | [] => []
  | xy :: pairs' =>
      {| cr_x := fst xy; cr_y := snd xy;
         cr_query := build_query question_template (fst xy) (snd xy);
         cr_answer := answer_of (c n (pair_request model_name question_template xy)) |}
      :: results_from c model_name question_template (S n) pairs'
  end.

(** The first request that fails, when the requests are sent in order from
    the [n]-th of the session: its position in the list (from 0) and the
    detail of the failure. *)
Fixpoint first_failure (c : client) (n : nat) (qs : list request)
  : option (nat * pystr) :=
  match qs with
  | [] => None
  | q :: qs' =>
      match c n q with
      | Fail d => Some (0, d)
      | Reply _ =>
          match first_failure c (S n) qs' with
          | Some (i, d) => Some (S i, d)
          | None => None
          end
      end
  end.

(** The steps of the two nested loops, in order: a heading per X topic and
    a body per pair. *)
Inductive step : Type :=
| StepHeading (x_word : pystr)
| StepPair (xi yi : nat) (x_word y_word : pystr).

Definition steps_of_row (xi : nat) (x_word : pystr) (ys : list (nat * pystr))
  : list step :=
  StepHeading x_word :: map (fun iy => StepPair xi (fst iy) x_word (snd iy)) ys.

Definition steps_of (xs ys : list (nat * pystr)) : list step :=
  flat_map (fun ix => steps_of_row (fst ix) (snd ix) ys) xs.

Fixpoint step_pairs (l : list step) : list (pystr * pystr) :=
  match l with
  | [] => []
  | StepHeading _ :: l' => step_pairs l'
  | StepPair _ _ x y :: l' => (x, y) :: step_pairs l'
  end.

Fixpoint step_ids (l : list step) : list (nat * nat) :=
  match l with
  | [] => []
  | StepHeading _ :: l' => step_ids l'
  | StepPair xi yi _ _ :: l' => (xi, yi) :: step_ids l'
  end.

(** The loops run step by step. *)
Fixpoint run_steps (c : client) (model_name question_template : pystr)
  (total : nat) (l : list step) (done : nat) : M nat :=
  match l with
  | [] => ret done
  | StepHeading x_word :: l' =>
      emit (EvHeadingX x_word) ;;;
      run_steps c model_name question_template total l' done
  | StepPair xi yi x_word y_word :: l' =>
      let query := build_query question_template x_word y_word in
      answer <- gen_response c model_name query ;;
      emit (EvResult xi yi
              {| cr_x := x_word; cr_y := y_word;
                 cr_query := query; cr_answer := answer |}) ;;;
      let done := S done in
      emit (EvProgress done total) ;;;
      run_steps c model_name question_template total l' done
  end.

(** The progress signals from [done = d + 1] on, [n] of them. *)
Definition progress_steps (total d n : nat) : list (nat * nat) :=
  map (fun k => (k, total)) (seq (S d) n).

(** *** Statements to compare the code with *)

(** The other order of the two substitutions:
    [question_template.replace("Y", y_word).replace("X", x_word)]. *)
Definition build_query_y_first (question_template x_word y_word : pystr)
  : pystr :=
  replace (replace question_template (lit "Y") y_word) (lit "X") x_word.

(** [c in s] for a character *)
Definition contains (c : N) (s : pystr) : bool := existsb (N.eqb c) s.

(** The three tiers taken one by one; a tier that does not apply yields the
    empty list. *)
Definition tier_parsed (B : builtins) (resp : response) : list pystr :=
  match getattr_parsed resp with
  | PList items => stripped_items B items
  | _ => []
  end.

Definition tier_json (B : builtins) (resp : response) : list pystr :=
  match json_loads B (resp_text resp) with
  | Ok (PList items) => stripped_items B items
  | _ => []
  end.

Definition tier_lines (resp : response) : list pystr :=
  bullet_lines (splitlines (strip (text_or_empty resp))).

(** The cascade as the specification words it: the tiers in order, going
    on to the next one whenever the current one yields an empty list. *)
Definition tiers_until_nonempty (B : builtins) (resp : response) : list pystr :=
  if list_truthy (tier_parsed B resp) then tier_parsed B resp
  else if list_truthy (tier_json B resp) then tier_json B resp
  else tier_lines resp.

(** No entry is empty or made of whitespace only. *)
Definition clean_entry (s : pystr) : bool := truthy (strip s).

(** A line feed. *)
Definition nl : pystr := [10%N].

(** A string without line boundaries. *)
Definition no_linebreak (s : pystr) : Prop :=
  Forall (fun c => islinebreak c = false) s.

(** [json.loads(resp.text)] returns a list. *)
Definition json_is_list (B : builtins) (resp : response) : bool :=
  match json_loads B (resp_text resp) with
  | Ok (PList _) => true
  | _ => false
  end.

(** The tier whose decoding applies first: [.parsed] when it is a list,
    else the JSON decoding of the text when it is a list, else the lines. *)
Definition first_applicable_tier (B : builtins) (resp : response) : list pystr :=
  if isinstance_list (getattr_parsed resp) then tier_parsed B resp
  else if json_is_list B resp then tier_json B resp
  else tier_lines resp.

(** An instance of the two parametric conversions, for running examples
    that hold no float and no nested string. *)
Definition sample_builtins : builtins :=
  {| float_of_literal := fun lexeme => lexeme;
     str_repr := fun s => 39%N :: s ++ [39%N] |}.

(** Example responses. *)
Definition resp_empty_json_array : response :=
  {| resp_parsed := None; resp_text := Some (jlit "[]") |}.

Definition resp_json_pq : response :=
  {| resp_parsed := None; resp_text := Some (jlit "['P','Q']") |}.

Definition resp_parsed_mixed : response :=
  {| resp_parsed := Some (PList [PInt 1; PInt (-20); PStr (lit " a "); PStr (lit "  "); PBool true]);
     resp_text := None |}.

Definition resp_json_numbers : response :=
  {| resp_parsed := None; resp_text := Some (jlit "[1, 22 ,-3]") |}.

Definition text_bullets_abc : pystr :=
  lit "- A" ++ nl ++ lit "- B" ++ nl ++ nl ++ lit "- C".

Definition resp_marker_only_line : response :=
  {| resp_parsed := None;
     resp_text := Some (lit "- A" ++ nl ++ lit "---" ++ nl ++ lit "- B") |}.

(** A hyphen, a no-break space, a line feed and "B". *)
Definition resp_marker_nbsp_line : response :=
  {| resp_parsed := None;
     resp_text := Some (45%N :: 160%N :: nl ++ lit "B") |}.

(** A client that answers every request with the text "ok", and one whose
    fourth request of the session (number 3) fails. *)
Definition client_ok : client :=
  fun _ _ => Reply {| resp_parsed := None; resp_text := Some (lit "ok") |}.

Definition client_fails_fourth : client :=
  fun n _ =>
    if Nat.eqb n 3 then Fail (lit "quota")
    else Reply {| resp_parsed := None; resp_text := Some (lit "ok") |}.

Definition inputs_manual (x_manual y_manual : pystr) : inputs :=
  {| api_key := lit "key"; model_name := lit "gemini-2.5-flash";
     list_mode := ModeManual x_manual y_manual;
     question_template := lit "In X, about Y"; run := true |}.

End App.

(** ** The result block *)

Module Render.
Import Py PyVal Json App.

(** A lower-case hexadecimal digit. *)
Definition hex_char (n : N) : N :=
  if (n <? 10)%N then (48 + n)%N else (87 + n)%N.

(** The escape table of [json.encoder]: the quote, the backslash and the
    five short escapes have their own entry, every other character below
    U+0020 is written as a [\u] escape of four hexadecimal digits, and
    every other character stands for itself. *)
Definition escape_char (c : N) : pystr :=
  if (c =? 92)%N then [92; 92]%N
  else if (c =? 34)%N then [92; 34]%N
  else if (c =? 8)%N then [92; 98]%N
  else if (c =? 12)%N then [92; 102]%N
  else if (c =? 10)%N then [92; 110]%N
  else if (c =? 13)%N then [92; 114]%N
  else if (c =? 9)%N then [92; 116]%N
  else if (c <? 32)%N then
    [92; 117; hex_char (c / 4096); hex_char ((c / 256) mod 16);
     hex_char ((c / 16) mod 16); hex_char (c mod 16)]%N
  else [c].

(** [json.dumps(s, ensure_ascii=False)] for a [str]: [encode_basestring]. *)
Definition json_dumps_str (s : pystr) : pystr :=
  34%N :: flat_map escape_char s ++ [34%N].

(** [payload = json.dumps(answer or "", ensure_ascii=False)] *)
Definition copy_payload (answer : pystr) : pystr :=
  json_dumps_str (if truthy answer then answer else []).

(** [uid = f"copy_{xi}_{yi}"] *)
Definition copy_uid (xi yi : nat) : pystr :=
  lit "copy_" ++ str_of_int (Z.of_nat xi) ++ lit "_" ++ str_of_int (Z.of_nat yi).

(** The requests [list_gen] sends for the two prompts. *)
Definition list_request (model_name prompt : pystr) : request :=
  {| req_model := model_name; req_contents := prompt;
     req_config := CfgJsonList |}.

(** Number of [list_gen] calls of the resolution. *)
Definition resolution_calls (m : mode) : nat :=
  match m with
  | ModeGenerated _ _ => 2
  | ModeManual _ _ => 0
  end.

(** A client whose request number [k] of the session fails, and that
    answers every other request with the text "ok". *)
Definition client_fails_at (k : nat) : client :=
  fun n _ =>
    if Nat.eqb n k then Fail (lit "quota")
    else Reply {| resp_parsed := None; resp_text := Some (lit "ok") |}.

(** A character of [bullet_chars]. *)
Definition is_bullet (c : N) : bool := existsb (N.eqb c) bullet_chars.

(** A string made of whitespace only (the empty string included). *)
Definition blank (s : pystr) : bool := forallb isspace s.

End Render.

(** * Properties *)

Import Py PyVal Json App.

(** ** Strings *)

Section StripFacts.
Variable p : N -> bool.

Lemma lstrip_by_head (s : pystr) (c : N) (r : pystr) :
  lstrip_by p s = c :: r -> p c = false.
Proof.
  induction s as [|a s IH]; simpl; [discriminate|].
  destruct (p a) eqn:E; [exact IH|].
  intros H; injection H as -> _; exact E.
Qed.

Lemma lstrip_by_fixed (s : pystr) :
  lstrip_by p (lstrip_by p s) = lstrip_by p s.
Proof.
  destruct (lstrip_by p s) as [|c r] eqn:E; [reflexivity|].
  simpl. now rewrite (lstrip_by_head _ E).
Qed.

Lemma lstrip_by_suffix (s : pystr) :
  exists pre, s = pre ++ lstrip_by p s.
Proof.
  induction s as [|a s [pre IH]]; simpl.
  - now exists [].
  - destruct (p a).
    + exists (a :: pre). simpl. now f_equal.
    + now exists [].
Qed.

Lemma lstrip_by_Forall (P : N -> Prop) (s : pystr) :
  Forall P s -> Forall P (lstrip_by p s).
Proof.
  induction 1 as [|a s Ha Hs IH]; simpl; [constructor|].
  destruct (p a); [exact IH | now constructor].
Qed.

Lemma strip_by_Forall (P : N -> Prop) (s : pystr) :
  Forall P s -> Forall P (strip_by p s).
Proof.
  intros H. unfold strip_by, rstrip_by.
  apply Forall_rev, lstrip_by_Forall, Forall_rev, lstrip_by_Forall, H.
Qed.

(** What [strip] returns has nothing left to strip at either end. *)
Lemma strip_by_lstrip (s : pystr) :
  lstrip_by p (strip_by p s) = strip_by p s.
Proof.
  unfold strip_by, rstrip_by.
  destruct (lstrip_by_suffix (rev (lstrip_by p s))) as [pre Hpre].
  set (w := lstrip_by p (rev (lstrip_by p s))) in *.
  assert (Hv : lstrip_by p s = rev w ++ rev pre).
  { rewrite <- rev_app_distr, <- Hpre. now rewrite rev_involutive. }
  destruct (rev w) as [|c u] eqn:Eu; [reflexivity|].
  simpl in Hv. simpl. now rewrite (lstrip_by_head _ Hv).
Qed.

Lemma strip_by_rstrip (s : pystr) :
  rstrip_by p (strip_by p s) = strip_by p s.
Proof.
  unfold strip_by, rstrip_by.
  now rewrite rev_involutive, lstrip_by_fixed.
Qed.

Lemma strip_by_idempotent (s : pystr) :
  strip_by p (strip_by p s) = strip_by p s.
Proof.
  unfold strip_by at 1. now rewrite strip_by_lstrip, strip_by_rstrip.
Qed.
End StripFacts.

Lemma strip_idempotent (s : pystr) : strip (strip s) = strip s.
Proof. apply strip_by_idempotent. Qed.

(** An entry that survives the filter is clean. *)
Lemma strip_clean (s : pystr) :
  truthy (strip s) = true -> clean_entry (strip s) = true.
Proof. unfold clean_entry. now rewrite strip_idempotent. Qed.

Section ReplaceFacts.

(** Replacing a one-character pattern maps every character on its own. *)
Lemma replace_char (s : pystr) (c : N) (new : pystr) :
  replace s [c] new = flat_map (fun d => if (d =? c)%N then new else [d]) s.
Proof.
  unfold replace.
  induction s as [|d s IH]; simpl; [reflexivity|].
  rewrite andb_true_r, (N.eqb_sym c d).
  destruct (d =? c)%N; simpl; now rewrite IH.
Qed.

Lemma flat_map_flat_map {A B C} (f : B -> list C) (g : A -> list B) (l : list A) :
  flat_map f (flat_map g l) = flat_map (fun a => flat_map f (g a)) l.
Proof.
  induction l as [|a l IH]; simpl; [reflexivity|].
  now rewrite flat_map_app, IH.
Qed.

Lemma flat_map_id_when (f : N -> pystr) (s : pystr) :
  (forall c, In c s -> f c = [c]) -> flat_map f s = s.
Proof.
  induction s as [|a s IH]; simpl; intros H; [reflexivity|].
  rewrite (H a (or_introl eq_refl)). simpl. f_equal.
  apply IH. intros c Hc. apply H. now right.
Qed.

Lemma contains_false (c : N) (s : pystr) :
  contains c s = false -> forall d, In d s -> (d =? c)%N = false.
Proof.
  unfold contains. intros H d Hd.
  destruct (d =? c)%N eqn:E; [|reflexivity].
  apply N.eqb_eq in E. subst d.
  assert (existsb (N.eqb c) s = true)
    by (apply existsb_exists; exists c; split; [exact Hd | apply N.eqb_refl]).
  congruence.
Qed.

Lemma replace_char_absent (s : pystr) (c : N) (new : pystr) :
  contains c s = false -> replace s [c] new = s.
Proof.
  intros H. rewrite replace_char. apply flat_map_id_when.
  intros d Hd. now rewrite (contains_false _ _ H d Hd).
Qed.

(** The query, character by character of the template. *)
Lemma build_query_pointwise (t x y : pystr) :
  build_query t x y =
  flat_map (fun c => if (c =? 88)%N then replace x (lit "Y") y
                     else if (c =? 89)%N then y else [c]) t.
Proof.
  unfold build_query. change (lit "X") with [88%N]. change (lit "Y") with [89%N].
  rewrite (replace_char (replace t [88%N] x)), (replace_char t), flat_map_flat_map.
  apply flat_map_ext. intros c.
  destruct (c =? 88)%N eqn:E.
  - now rewrite replace_char.
  - simpl. now rewrite app_nil_r.
Qed.

Lemma build_query_y_first_pointwise (t x y : pystr) :
  build_query_y_first t x y =
  flat_map (fun c => if (c =? 89)%N then replace y (lit "X") x
                     else if (c =? 88)%N then x else [c]) t.
Proof.
  unfold build_query_y_first. change (lit "X") with [88%N]. change (lit "Y") with [89%N].
  rewrite (replace_char (replace t [89%N] y)), (replace_char t), flat_map_flat_map.
  apply flat_map_ext. intros c.
  destruct (c =? 89)%N eqn:E.
  - now rewrite replace_char.
  - simpl. now rewrite app_nil_r.
Qed.
End ReplaceFacts.

(** C1, as amended: for every template and every pair of topics such that
    the X topic holds no literal "Y" and the Y topic holds no literal "X",
    the query is the same whichever of the two replacements is applied
    first. *)
Theorem C1_order_irrelevant_when_topics_have_no_placeholder
  (t x y : pystr)
  (Hx : contains 89 x = false) (Hy : contains 88 y = false) :
  build_query t x y = build_query_y_first t x y.
Proof.
  rewrite build_query_pointwise, build_query_y_first_pointwise.
  apply flat_map_ext. intros c.
  change (lit "X") with [88%N]. change (lit "Y") with [89%N].
  rewrite 2!replace_char_absent by assumption.
  destruct (c =? 88)%N eqn:E8, (c =? 89)%N eqn:E9; try reflexivity.
  apply N.eqb_eq in E8, E9. congruence.
Qed.

Lemma C1_order_irrelevant_witness :
  build_query (lit "In X, about Y") (lit "Mfg") (lit "Cost")
  = build_query_y_first (lit "In X, about Y") (lit "Mfg") (lit "Cost").
Proof.
  apply C1_order_irrelevant_when_topics_have_no_placeholder; reflexivity.
Defined.

(** C1, as stated, fails: with template "X", X topic "Y" and Y topic "Z"
    the code's order gives "Z" and the other order gives "Y". *)
Lemma C1_order_matters_counterexample :
  build_query (lit "X") (lit "Y") (lit "Z") = lit "Z"
  /\ build_query_y_first (lit "X") (lit "Y") (lit "Z") = lit "Y"
  /\ build_query (lit "X") (lit "Y") (lit "Z")
     <> build_query_y_first (lit "X") (lit "Y") (lit "Z").
Proof. repeat split; try reflexivity. vm_compute. discriminate. Qed.

(** C10: the query is the "X" replacement followed by the "Y" replacement.
    Character by character of the template: an "X" becomes the X topic with
    its own "Y" characters replaced by the Y topic, a "Y" becomes the Y
    topic as it is (its "X" characters are kept), and any other character
    is kept. *)
Theorem C10_x_replaced_first (t x y : pystr) :
  build_query t x y = replace (replace t (lit "X") x) (lit "Y") y
  /\ build_query t x y =
     flat_map (fun c => if (c =? 88)%N then replace x (lit "Y") y
                        else if (c =? 89)%N then y else [c]) t
  /\ build_query (lit "<X>") (lit "aYb") (lit "X1") = lit "<aX1b>"
  /\ build_query (lit "<Y>") (lit "q") (lit "X1") = lit "<X1>".
Proof.
  split; [reflexivity|]. split; [apply build_query_pointwise|].
  split; reflexivity.
Qed.

(** ** Lines *)

Section SplitlinesFacts.

(** A line feed closes the current line. *)
Lemma splitlines_from_lf (cur s : pystr) :
  splitlines_from cur (10%N :: s) = rev cur :: splitlines_from [] s.
Proof. destruct s; reflexivity. Qed.

(** Characters that are not boundaries go to the current line. *)
Lemma splitlines_from_app (l cur rest : pystr) :
  no_linebreak l ->
  splitlines_from cur (l ++ rest) = splitlines_from (rev l ++ cur) rest.
Proof.
  intros H. revert cur.
  induction H as [|c l Hc Hl IH]; intros cur; simpl; [reflexivity|].
  rewrite Hc, IH, <- app_assoc. reflexivity.
Qed.

(** No line holds a boundary character. *)
Lemma splitlines_from_no_linebreak (s cur : pystr) :
  no_linebreak cur -> Forall no_linebreak (splitlines_from cur s).
Proof.
  revert cur.
  induction s as [|c s IH]; intros cur Hcur; simpl.
  - destruct cur; constructor; [|constructor].
    apply Forall_rev. exact Hcur.
  - destruct (islinebreak c) eqn:E.
    + constructor; [apply Forall_rev; exact Hcur|].
      destruct s as [|d s'']; [constructor|].
      destruct ((c =? 13)%N && (d =? 10)%N) eqn:E2;
        [|apply IH; constructor].
      apply andb_prop in E2 as [_ Ed]. apply N.eqb_eq in Ed. subst d.
      specialize (IH [] (Forall_nil _)).
      rewrite splitlines_from_lf in IH. now inversion IH.
    + apply IH. constructor; assumption.
Qed.

Lemma splitlines_no_linebreak (s : pystr) :
  Forall no_linebreak (splitlines s).
Proof. apply splitlines_from_no_linebreak. constructor. Qed.

(** Joining lines with line feeds and splitting again gives the lines
    back, when none is empty and none holds a boundary. *)
Lemma splitlines_join (ls : list pystr) :
  Forall no_linebreak ls -> Forall (fun l => truthy l = true) ls ->
  splitlines (join nl ls) = ls.
Proof.
  unfold splitlines.
  induction ls as [|l ls IH]; intros Hnb Hne; [reflexivity|].
  inversion Hnb as [|? ? Hl Hls]; subst.
  inversion Hne as [|? ? Hl' Hls']; subst.
  destruct ls as [|l2 ls'].
  - simpl. rewrite <- (app_nil_r l) at 1.
    rewrite splitlines_from_app by assumption. simpl.
    rewrite app_nil_r.
    destruct l as [|c l]; [discriminate|].
    destruct (rev (c :: l)) eqn:E.
    + apply (f_equal (@rev N)) in E. rewrite rev_involutive in E. discriminate.
    + rewrite <- E. now rewrite rev_involutive.
  - change (join nl (l :: l2 :: ls')) with (l ++ nl ++ join nl (l2 :: ls')).
    rewrite splitlines_from_app by assumption.
    unfold nl. simpl ([10%N] ++ _).
    rewrite splitlines_from_lf, app_nil_r, rev_involutive.
    f_equal. apply IH; assumption.
Qed.
End SplitlinesFacts.

Section ComprehensionFacts.

Lemma stripped_lines_map_filter (lines : list pystr) :
  stripped_lines lines
  = map strip (filter (fun ln => truthy (strip ln)) lines).
Proof.
  induction lines as [|ln lines IH]; simpl; [reflexivity|].
  destruct (truthy (strip ln)); simpl; now rewrite IH.
Qed.

Lemma stripped_lines_clean (lines : list pystr) :
  Forall (fun e => clean_entry e = true) (stripped_lines lines).
Proof.
  induction lines as [|ln lines IH]; simpl; [constructor|].
  destruct (truthy (strip ln)) eqn:E; [|exact IH].
  constructor; [now apply strip_clean | exact IH].
Qed.

Lemma stripped_lines_fixed (lines : list pystr) :
  Forall (fun e => strip e = e /\ truthy e = true) lines ->
  stripped_lines lines = lines.
Proof.
  induction 1 as [|e lines [He Ht] _ IH]; simpl; [reflexivity|].
  now rewrite He, Ht, IH.
Qed.

Lemma stripped_lines_entries (lines : list pystr) :
  Forall no_linebreak lines ->
  Forall (fun e => no_linebreak e /\ strip e = e /\ truthy e = true)
         (stripped_lines lines).
Proof.
  induction 1 as [|ln lines Hln _ IH]; simpl; [constructor|].
  destruct (truthy (strip ln)) eqn:E; [|exact IH].
  constructor; [|exact IH].
  split; [now apply strip_by_Forall|].
  split; [apply strip_idempotent | exact E].
Qed.

Lemma stripped_items_map_filter (B : builtins) (data : list pyval) :
  stripped_items B data
  = filter truthy (map (fun x => strip (py_str B x)) data).
Proof.
  induction data as [|x data IH]; simpl; [reflexivity|].
  destruct (truthy (strip (py_str B x))); simpl; now rewrite IH.
Qed.

Lemma stripped_items_clean (B : builtins) (data : list pyval) :
  Forall (fun e => clean_entry e = true) (stripped_items B data).
Proof.
  induction data as [|x data IH]; simpl; [constructor|].
  destruct (truthy (strip (py_str B x))) eqn:E; [|exact IH].
  constructor; [now apply strip_clean | exact IH].
Qed.
End ComprehensionFacts.

(** C7: the manual resolver returns the lines of the input that are
    non-empty once trimmed, each trimmed, in their order; it is a total
    function, and resolving the line-feed join of its own output gives that
    output back. *)
Theorem C7_manual_list_trimmed_lines_idempotent (text : pystr) :
  manual_list text
  = map strip (filter (fun ln => truthy (strip ln)) (splitlines text))
  /\ manual_list (join nl (manual_list text)) = manual_list text.
Proof.
  split; [apply stripped_lines_map_filter|].
  unfold manual_list at 1.
  pose proof (stripped_lines_entries (splitlines_no_linebreak text)) as H.
  fold (manual_list text) in H.
  rewrite splitlines_join.
  - apply stripped_lines_fixed. eapply Forall_impl; [|exact H]. simpl. tauto.
  - eapply Forall_impl; [|exact H]. simpl. tauto.
  - eapply Forall_impl; [|exact H]. simpl. tauto.
Qed.

(** ** The decoder has enough fuel *)

Section JsonFuel.
Variable B : builtins.

Lemma lstrip_by_length (p : N -> bool) (s : pystr) :
  length (lstrip_by p s) <= length s.
Proof.
  induction s as [|c s IH]; simpl; [lia|].
  destruct (p c); simpl; lia.
Qed.

Lemma skip_ws_length (s : pystr) : length (skip_ws s) <= length s.
Proof. apply lstrip_by_length. Qed.

Lemma skip_ws_cons (s : pystr) (d : N) (r : pystr) :
  skip_ws s = d :: r -> length r < length s.
Proof. intros H. pose proof (skip_ws_length s) as L. rewrite H in L. simpl in L. lia. Qed.

Ltac break_match H :=
  repeat (match type of H with
          | context [match ?x with _ => _ end] => destruct x eqn:?
          end; try discriminate H).

(** A string scan consumes its closing quote at least. *)
Lemma scanstring_consumes (n : nat) :
  forall s acc str r,
    length s <= n -> scanstring acc s = Some (str, r) -> length r < length s.
Proof.
  induction n as [|n IH]; intros s acc str r L H.
  - destruct s; [discriminate | simpl in L; lia].
  - destruct s as [|c s1]; [discriminate|].
    simpl in L. cbn [scanstring] in H.
    break_match H;
      try (injection H as _ <-; simpl; lia);
      try (apply IH in H; simpl in *; lia).
Qed.

Lemma scanstring_shorter (s acc str r : pystr) :
  scanstring acc s = Some (str, r) -> length r < length s.
Proof. apply scanstring_consumes with (n := length s). lia. Qed.

Lemma span_digits_length (s : pystr) :
  length (snd (span_digits s)) <= length s.
Proof.
  induction s as [|c s IH]; simpl; [lia|].
  destruct (is_digit c); [|simpl; lia].
  destruct (span_digits s). simpl in *. lia.
Qed.

Lemma match_integer_consumes (s lexeme r : pystr) :
  match_integer s = Some (lexeme, r) -> length r < length s.
Proof.
  unfold match_integer. intros H.
  destruct s as [|c s]; [discriminate|].
  destruct (c =? 45)%N.
  - destruct s as [|d s]; [discriminate|].
    destruct (d =? 48)%N; [injection H as _ <-; simpl; lia|].
    destruct (is_digit d); [|discriminate].
    pose proof (span_digits_length s) as L.
    destruct (span_digits s). injection H as _ <-. simpl in *. lia.
  - destruct (c =? 48)%N; [injection H as _ <-; simpl; lia|].
    destruct (is_digit c); [|discriminate].
    pose proof (span_digits_length s) as L.
    destruct (span_digits s). injection H as _ <-. simpl in *. lia.
Qed.

Lemma match_frac_length (s : pystr) : length (snd (match_frac s)) <= length s.
Proof.
  unfold match_frac. destruct s as [|c s]; [simpl; lia|].
  destruct (c =? 46)%N; [|simpl; lia].
  pose proof (span_digits_length s) as L.
  destruct (span_digits s) as [[|d ds] r]; simpl in *; lia.
Qed.

Lemma match_exp_length (s : pystr) : length (snd (match_exp s)) <= length s.
Proof.
  unfold match_exp. destruct s as [|c s]; [simpl; lia|].
  destruct ((c =? 101) || (c =? 69))%N; [|simpl; lia].
  destruct s as [|d s].
  - simpl. lia.
  - destruct ((d =? 45) || (d =? 43))%N.
    + pose proof (span_digits_length s) as L.
      destruct (span_digits s) as [[|e ds] r]; simpl in *; lia.
    + pose proof (span_digits_length (d :: s)) as L.
      destruct (span_digits (d :: s)) as [[|e ds] r]; simpl in *; lia.
Qed.

Lemma match_number_consumes (s : pystr) (v : pyval) (r : pystr) :
  match_number B s = Some (v, r) -> length r < length s.
Proof.
  unfold match_number. intros H.
  destruct (match_integer s) as [[integer r1]|] eqn:E; [|discriminate].
  apply match_integer_consumes in E.
  pose proof (match_frac_length r1) as L1.
  destruct (match_frac r1) as [frac r2].
  pose proof (match_exp_length r2) as L2.
  destruct (match_exp r2) as [exp r3]. simpl in *.
  destruct (truthy frac || truthy exp); injection H as _ <-; lia.
Qed.

Lemma starts_with_length (p s : pystr) :
  starts_with p s = true -> length p <= length s.
Proof.
  revert s. induction p as [|a p IH]; intros s H; simpl; [lia|].
  destruct s as [|b s]; [discriminate|]. simpl in *.
  apply andb_prop in H as [_ H]. apply IH in H. lia.
Qed.

Lemma skipn_consumes (k : nat) (p s : pystr) :
  starts_with p s = true -> length p = k -> 0 < k ->
  length (skipn k s) < length s.
Proof.
  intros H <- Hk. apply starts_with_length in H. rewrite length_skipn. lia.
Qed.

(** A decoded value consumes at least one character. *)
Lemma scan_consumes (fuel : nat) :
  (forall s v r, scan_once B fuel s = Some (v, r) -> length r < length s)
  /\ (forall s acc v r,
        array_items B fuel s acc = Some (v, r) -> length r < length s)
  /\ (forall s acc v r,
        object_items B fuel s acc = Some (v, r) -> length r < length s).
Proof.
  induction fuel as [|f (IHs & IHa & IHo)];
    [repeat split; intros; discriminate|].
  split; [|split].
  - intros s v r H. cbn [scan_once] in H.
    destruct s as [|c s0]; [discriminate|].
    destruct (c =? 34)%N.
    { destruct (scanstring [] s0) as [[str r']|] eqn:E; [|discriminate].
      injection H as _ <-.
      apply scanstring_shorter in E. simpl. lia. }
    destruct (c =? 123)%N.
    { destruct (skip_ws s0) as [|d r1] eqn:E; [discriminate|].
      apply skip_ws_cons in E.
      destruct (d =? 125)%N; [injection H as _ <-; simpl; lia|].
      destruct (d =? 34)%N; [|discriminate].
      apply IHo in H. simpl. lia. }
    destruct (c =? 91)%N.
    { destruct (skip_ws s0) as [|d r1] eqn:E; [discriminate|].
      assert (L := E). apply skip_ws_cons in L.
      destruct (d =? 93)%N; [injection H as _ <-; simpl; lia|].
      apply IHa in H. simpl in *. lia. }
    destruct (starts_with (lit "null") (c :: s0)) eqn:E1.
    { injection H as _ <-. apply skipn_consumes with (k := 4) (p := lit "null") (s := c :: s0); [exact E1 | reflexivity | lia]. }
    destruct (starts_with (lit "true") (c :: s0)) eqn:E2.
    { injection H as _ <-. apply skipn_consumes with (k := 4) (p := lit "true") (s := c :: s0); [exact E2 | reflexivity | lia]. }
    destruct (starts_with (lit "false") (c :: s0)) eqn:E3.
    { injection H as _ <-. apply skipn_consumes with (k := 5) (p := lit "false") (s := c :: s0); [exact E3 | reflexivity | lia]. }
    destruct (match_number B (c :: s0)) as [[v' r']|] eqn:E4.
    { injection H as _ <-. now apply match_number_consumes in E4. }
    destruct (starts_with (lit "NaN") (c :: s0)) eqn:E5.
    { injection H as _ <-. apply skipn_consumes with (k := 3) (p := lit "NaN") (s := c :: s0); [exact E5 | reflexivity | lia]. }
    destruct (starts_with (lit "Infinity") (c :: s0)) eqn:E6.
    { injection H as _ <-. apply skipn_consumes with (k := 8) (p := lit "Infinity") (s := c :: s0); [exact E6 | reflexivity | lia]. }
    destruct (starts_with (lit "-Infinity") (c :: s0)) eqn:E7; [|discriminate].
    injection H as _ <-. apply skipn_consumes with (k := 9) (p := lit "-Infinity") (s := c :: s0); [exact E7 | reflexivity | lia].
  - intros s acc v r H. cbn [array_items] in H.
    destruct (scan_once B f s) as [[v1 s1]|] eqn:E; [|discriminate].
    apply IHs in E.
    destruct (skip_ws s1) as [|d s2] eqn:E1; [discriminate|].
    apply skip_ws_cons in E1.
    destruct (d =? 93)%N; [injection H as _ <-; lia|].
    destruct (d =? 44)%N; [|discriminate].
    apply IHa in H. pose proof (skip_ws_length s2). lia.
  - intros s acc v r H. cbn [object_items] in H.
    destruct (scanstring [] s) as [[key s1]|] eqn:E; [|discriminate].
    apply scanstring_shorter in E.
    destruct (skip_ws s1) as [|c s2] eqn:E1; [discriminate|].
    apply skip_ws_cons in E1.
    destruct (negb (c =? 58)%N); [discriminate|].
    destruct (scan_once B f (skip_ws s2)) as [[v1 s3]|] eqn:E2; [|discriminate].
    apply IHs in E2. pose proof (skip_ws_length s2).
    destruct (skip_ws s3) as [|d s4] eqn:E3; [discriminate|].
    apply skip_ws_cons in E3.
    destruct (d =? 125)%N; [injection H as _ <-; lia|].
    destruct (d =? 44)%N; [|discriminate].
    destruct (skip_ws s4) as [|q s5] eqn:E4; [discriminate|].
    apply skip_ws_cons in E4.
    destruct (q =? 34)%N; [|discriminate].
    apply IHo in H. lia.
Qed.

Lemma scan_once_shorter (fuel : nat) (s : pystr) (v : pyval) (r : pystr) :
  scan_once B fuel s = Some (v, r) -> length r < length s.
Proof. apply (scan_consumes fuel). Qed.

(** Above twice the length of the input (plus two for a value, plus three
    for the items of an array or of an object), the amount of fuel does
    not change the result: the decoder never runs out of it. *)
Lemma fuel_stable (n : nat) :
  (forall s f1 f2,
      length s < n -> 2 * length s + 2 <= f1 -> 2 * length s + 2 <= f2 ->
      scan_once B f1 s = scan_once B f2 s)
  /\ (forall s acc f1 f2,
        length s < n -> 2 * length s + 3 <= f1 -> 2 * length s + 3 <= f2 ->
        array_items B f1 s acc = array_items B f2 s acc)
  /\ (forall s acc f1 f2,
        length s < n -> 2 * length s + 3 <= f1 -> 2 * length s + 3 <= f2 ->
        object_items B f1 s acc = object_items B f2 s acc).
Proof.
  induction n as [|n (IHs & IHa & IHo)]; [repeat split; intros; lia|].
  assert (HS : forall s f1 f2,
             length s < S n -> 2 * length s + 2 <= f1 -> 2 * length s + 2 <= f2 ->
             scan_once B f1 s = scan_once B f2 s).
  { intros s f1 f2 L L1 L2.
    destruct f1 as [|f1]; [lia|]. destruct f2 as [|f2]; [lia|].
    cbn [scan_once].
    destruct s as [|c s0]; [reflexivity|]. simpl in L, L1, L2.
    destruct (c =? 34)%N; [reflexivity|].
    destruct (c =? 123)%N.
    { destruct (skip_ws s0) as [|d r1] eqn:E; [reflexivity|].
      apply skip_ws_cons in E.
      destruct (d =? 125)%N; [reflexivity|].
      destruct (d =? 34)%N; [|reflexivity].
      apply IHo; lia. }
    destruct (c =? 91)%N; [|reflexivity].
    pose proof (skip_ws_length s0) as E.
    destruct (skip_ws s0) as [|d r1]; [reflexivity|].
    destruct (d =? 93)%N; [reflexivity|].
    apply IHa; simpl in *; lia. }
  split; [exact HS|]. split.
  - intros s acc f1 f2 L L1 L2.
    destruct f1 as [|f1]; [lia|]. destruct f2 as [|f2]; [lia|].
    cbn [array_items].
    rewrite (HS s f1 f2) by lia.
    destruct (scan_once B f2 s) as [[v s1]|] eqn:E; [|reflexivity].
    apply scan_once_shorter in E.
    destruct (skip_ws s1) as [|d s2] eqn:E1; [reflexivity|].
    apply skip_ws_cons in E1.
    destruct (d =? 93)%N; [reflexivity|].
    destruct (d =? 44)%N; [|reflexivity].
    pose proof (skip_ws_length s2).
    apply IHa; lia.
  - intros s acc f1 f2 L L1 L2.
    destruct f1 as [|f1]; [lia|]. destruct f2 as [|f2]; [lia|].
    cbn [object_items].
    destruct (scanstring [] s) as [[key s1]|] eqn:E; [|reflexivity].
    apply scanstring_shorter in E.
    destruct (skip_ws s1) as [|c s2] eqn:E1; [reflexivity|].
    apply skip_ws_cons in E1.
    destruct (negb (c =? 58)%N); [reflexivity|].
    pose proof (skip_ws_length s2).
    rewrite (HS (skip_ws s2) f1 f2) by lia.
    destruct (scan_once B f2 (skip_ws s2)) as [[v s3]|] eqn:E2; [|reflexivity].
    apply scan_once_shorter in E2.
    destruct (skip_ws s3) as [|d s4] eqn:E3; [reflexivity|].
    apply skip_ws_cons in E3.
    destruct (d =? 125)%N; [reflexivity|].
    destruct (d =? 44)%N; [|reflexivity].
    destruct (skip_ws s4) as [|q s5] eqn:E4; [reflexivity|].
    apply skip_ws_cons in E4.
    destruct (q =? 34)%N; [|reflexivity].
    apply IHo; lia.
Qed.

(** [json_loads] gives [scan_once] enough fuel: more would not change
    what it returns. *)
Lemma json_loads_fuel_enough (s : pystr) (fuel : nat) :
  2 * length s + 2 <= fuel ->
  scan_once B fuel (skip_ws s) = scan_once B (2 * length s + 2) (skip_ws s).
Proof.
  intros L. pose proof (skip_ws_length s).
  apply (fuel_stable (S (length (skip_ws s)))); lia.
Qed.
End JsonFuel.

(** ** The list resolver *)

Section ListOfResponse.
Variable B : builtins.

Lemma list_of_response_parsed (resp : response) (items : list pyval) :
  getattr_parsed resp = PList items ->
  list_of_response B resp = Ok (stripped_items B items).
Proof. unfold list_of_response. now intros ->. Qed.

Lemma list_of_response_not_parsed (resp : response) :
  isinstance_list (getattr_parsed resp) = false ->
  list_of_response B resp =
  match json_loads B (resp_text resp) with
  | Ok (PList items) => Ok (stripped_items B items)
  | _ => Ok (tier_lines resp)
  end.
Proof.
  unfold list_of_response, tier_lines.
  destruct (getattr_parsed resp); simpl; try discriminate; intros _;
    destruct (json_loads B (resp_text resp)) as [[]| |]; reflexivity.
Qed.

Lemma list_of_response_first_applicable (resp : response) :
  list_of_response B resp = Ok (first_applicable_tier B resp).
Proof.
  unfold first_applicable_tier.
  destruct (isinstance_list (getattr_parsed resp)) eqn:E.
  - unfold tier_parsed. destruct (getattr_parsed resp) eqn:G; try discriminate.
    now apply list_of_response_parsed.
  - rewrite list_of_response_not_parsed by exact E.
    unfold json_is_list, tier_json.
    destruct (json_loads B (resp_text resp)) as [[]| |]; reflexivity.
Qed.

Lemma tier_parsed_not_list (resp : response) :
  isinstance_list (getattr_parsed resp) = false -> tier_parsed B resp = [].
Proof. unfold tier_parsed. destruct (getattr_parsed resp); easy. Qed.

Lemma tier_json_not_list (resp : response) :
  json_is_list B resp = false -> tier_json B resp = [].
Proof.
  unfold tier_json, json_is_list.
  destruct (json_loads B (resp_text resp)) as [[]| |]; easy.
Qed.

Lemma list_truthy_false {A} (l : list A) : list_truthy l = false -> l = [].
Proof. destruct l; easy. Qed.
End ListOfResponse.



(** C3 fails on the third tier: a line made of bullet markers only passes
    the filter [ln.strip()] and is then stripped to the empty string, and a
    marker followed by a no-break space is stripped to that space.  The
    manual path and the two structured tiers keep the invariant. *)
Theorem C3_marker_only_line_gives_empty_entry (B : builtins) :
  list_of_response B resp_marker_only_line = Ok [lit "A"; []; lit "B"]
  /\ list_of_response B resp_marker_nbsp_line = Ok [[160%N]; lit "B"]
  /\ clean_entry [] = false
  /\ clean_entry [160%N] = false
  /\ (forall text, Forall (fun e => clean_entry e = true) (manual_list text))
  /\ (forall items, Forall (fun e => clean_entry e = true) (stripped_items B items)).
Proof.
  repeat split; try reflexivity.
  - intros text. apply stripped_lines_clean.
  - intros items. apply stripped_items_clean.
Qed.



(** C9: when [.parsed] is not a list, the text "- A", "- B", an empty line
    and "- C" (which is not JSON) resolves through the third tier to the
    three entries "A", "B" and "C". *)
Theorem C9_bullet_text_resolves_to_abc
  (B : builtins) (parsed : option pyval)
  (H : isinstance_list
         (getattr_parsed {| resp_parsed := parsed;
                            resp_text := Some text_bullets_abc |}) = false) :
  json_loads B (Some text_bullets_abc) = Raise JSONDecodeError
  /\ list_of_response B
       {| resp_parsed := parsed; resp_text := Some text_bullets_abc |}
     = Ok [lit "A"; lit "B"; lit "C"].
Proof.
  split; [reflexivity|].
  rewrite list_of_response_not_parsed by exact H. reflexivity.
Qed.

Lemma C9_bullet_text_witness :
  json_loads sample_builtins (Some text_bullets_abc) = Raise JSONDecodeError
  /\ list_of_response sample_builtins
       {| resp_parsed := None; resp_text := Some text_bullets_abc |}
     = Ok [lit "A"; lit "B"; lit "C"].
Proof.
  apply (C9_bullet_text_resolves_to_abc sample_builtins None). reflexivity.
Defined.

(** ** The combination runner *)

Section TraceFacts.

Lemma ncalls_app (a b : trace) : ncalls (a ++ b) = ncalls a + ncalls b.
Proof.
  induction a as [|e a IH]; simpl; [reflexivity|].
  destruct e; simpl; now rewrite IH.
Qed.

Lemma results_of_app (a b : trace) :
  results_of (a ++ b) = results_of a ++ results_of b.
Proof.
  induction a as [|e a IH]; simpl; [reflexivity|].
  destruct e; simpl; now rewrite IH.
Qed.

Lemma result_ids_of_app (a b : trace) :
  result_ids_of (a ++ b) = result_ids_of a ++ result_ids_of b.
Proof.
  induction a as [|e a IH]; simpl; [reflexivity|].
  destruct e; simpl; now rewrite IH.
Qed.

Lemma requests_of_app (a b : trace) :
  requests_of (a ++ b) = requests_of a ++ requests_of b.
Proof.
  induction a as [|e a IH]; simpl; [reflexivity|].
  destruct e; simpl; now rewrite IH.
Qed.

Lemma progress_of_app (a b : trace) :
  progress_of (a ++ b) = progress_of a ++ progress_of b.
Proof.
  induction a as [|e a IH]; simpl; [reflexivity|].
  destruct e; simpl; now rewrite IH.
Qed.

Lemma pair_calls_of_app (a b : trace) :
  pair_calls_of (a ++ b) = pair_calls_of a ++ pair_calls_of b.
Proof. unfold pair_calls_of. now rewrite requests_of_app, filter_app. Qed.
End TraceFacts.

Section EnumerateFacts.
Context {A : Type}.

Lemma map_snd_combine_seq (l : list A) (a : nat) :
  map snd (combine (seq a (length l)) l) = l.
Proof.
  revert a. induction l as [|x l IH]; intros a; simpl; [reflexivity|].
  now rewrite IH.
Qed.

Lemma map_fst_combine_seq (l : list A) (a : nat) :
  map fst (combine (seq a (length l)) l) = seq a (length l).
Proof.
  revert a. induction l as [|x l IH]; intros a; simpl; [reflexivity|].
  now rewrite IH.
Qed.

Lemma map_snd_enumerate (l : list A) : map snd (enumerate l) = l.
Proof. apply map_snd_combine_seq. Qed.

Lemma map_fst_enumerate (l : list A) :
  map fst (enumerate l) = seq 0 (length l).
Proof. apply map_fst_combine_seq. Qed.
End EnumerateFacts.

Section Steps.
Variable c : client.
Variables model_name question_template : pystr.
Variable total : nat.

Lemma bind_ext {A B} (m : M A) (k k' : A -> M B) (t : trace) :
  (forall a t', k a t' = k' a t') -> bind m k t = bind m k' t.
Proof.
  intros H. unfold bind.
  destruct (m t) as [[a|e|] t']; [apply H | reflexivity | reflexivity].
Qed.

(** The inner loop is the run of the pair steps of its row. *)
Lemma y_loop_steps (xi : nat) (x_word : pystr) (ys : list (nat * pystr))
  (done : nat) (t : trace) :
  y_loop c model_name question_template total xi x_word ys done t
  = run_steps c model_name question_template total
      (map (fun iy => StepPair xi (fst iy) x_word (snd iy)) ys) done t.
Proof.
  revert done t.
  induction ys as [|[yi y_word] ys IH]; intros done t; simpl; [reflexivity|].
  apply bind_ext. intros answer t1.
  apply bind_ext. intros _ t2.
  apply bind_ext. intros _ t3.
  apply IH.
Qed.

Lemma bind_assoc {A B C} (m : M A) (k : A -> M B) (k' : B -> M C) (t : trace) :
  bind (bind m k) k' t = bind m (fun a => bind (k a) k') t.
Proof. unfold bind. destruct (m t) as [[a|e|] t']; reflexivity. Qed.

Lemma run_steps_app (l1 l2 : list step) (done : nat) (t : trace) :
  run_steps c model_name question_template total (l1 ++ l2) done t
  = bind (run_steps c model_name question_template total l1 done)
      (fun done' => run_steps c model_name question_template total l2 done') t.
Proof.
  revert done t.
  induction l1 as [|s l1 IH]; intros done t; [reflexivity|].
  rewrite <- app_comm_cons.
  destruct s as [x_word | xi yi x_word y_word]; cbn [run_steps].
  - rewrite bind_assoc. apply bind_ext. intros _ t1. apply IH.
  - rewrite bind_assoc. apply bind_ext. intros answer t1.
    rewrite bind_assoc. apply bind_ext. intros _ t2.
    rewrite bind_assoc. apply bind_ext. intros _ t3. apply IH.
Qed.

(** The outer loop is the run of all the steps. *)
Lemma x_loop_steps (Y_list : list pystr) (xs : list (nat * pystr))
  (done : nat) (t : trace) :
  x_loop c model_name question_template total Y_list xs done t
  = run_steps c model_name question_template total
      (steps_of xs (enumerate Y_list)) done t.
Proof.
  revert done t.
  induction xs as [|[xi x_word] xs IH]; intros done t; [reflexivity|].
  cbn [x_loop steps_of flat_map fst snd].
  unfold steps_of_row at 1. rewrite <- app_comm_cons.
  cbn [run_steps].
  apply bind_ext. intros _ t1.
  rewrite run_steps_app.
  unfold bind. rewrite y_loop_steps.
  destruct (run_steps c model_name question_template total
              (map (fun iy => StepPair xi (fst iy) x_word (snd iy))
                 (enumerate Y_list)) done t1) as [[d|e|] t2];
    [apply IH | reflexivity | reflexivity].
Qed.

Lemma step_pairs_app (l1 l2 : list step) :
  step_pairs (l1 ++ l2) = step_pairs l1 ++ step_pairs l2.
Proof.
  induction l1 as [|s l1 IH]; simpl; [reflexivity|].
  destruct s; simpl; now rewrite IH.
Qed.

Lemma step_ids_app (l1 l2 : list step) :
  step_ids (l1 ++ l2) = step_ids l1 ++ step_ids l2.
Proof.
  induction l1 as [|s l1 IH]; simpl; [reflexivity|].
  destruct s; simpl; now rewrite IH.
Qed.

(** The pairs of the steps are the Cartesian product, row by row. *)
Lemma step_pairs_steps_of (xs ys : list (nat * pystr)) :
  step_pairs (steps_of xs ys) = list_prod (map snd xs) (map snd ys).
Proof.
  induction xs as [|[xi x] xs IH]; [reflexivity|].
  cbn [steps_of flat_map map list_prod fst snd].
  rewrite step_pairs_app. fold (steps_of xs ys). rewrite IH. f_equal.
  unfold steps_of_row. cbn [step_pairs].
  clear. induction ys as [|[yi y] ys IH]; simpl; [reflexivity|].
  now rewrite IH.
Qed.

Lemma step_ids_steps_of (xs ys : list (nat * pystr)) :
  step_ids (steps_of xs ys) = list_prod (map fst xs) (map fst ys).
Proof.
  induction xs as [|[xi x] xs IH]; [reflexivity|].
  cbn [steps_of flat_map map list_prod fst snd].
  rewrite step_ids_app. fold (steps_of xs ys). rewrite IH. f_equal.
  unfold steps_of_row. cbn [step_ids].
  clear. induction ys as [|[yi y] ys IH]; simpl; [reflexivity|].
  now rewrite IH.
Qed.
End Steps.

Create Rewrite HintDb trace.
#[local] Hint Rewrite ncalls_app results_of_app result_ids_of_app
  requests_of_app progress_of_app pair_calls_of_app : trace.

Section RunSteps.
Variable c : client.
Variables model_name question_template : pystr.
Variable total : nat.

Local Abbreviation req := (pair_request model_name question_template).
Local Abbreviation run_l := (run_steps c model_name question_template total).

Lemma heading_step (x_word : pystr) (l : list step) (done : nat) (t : trace) :
  run_l (StepHeading x_word :: l) done t = run_l l done (t ++ [EvHeadingX x_word]).
Proof. reflexivity. Qed.

Lemma pair_step_reply (xi yi : nat) (x_word y_word : pystr) (l : list step)
  (done : nat) (t : trace) (r : response) :
  c (ncalls t) (req (x_word, y_word)) = Reply r ->
  run_l (StepPair xi yi x_word y_word :: l) done t
  = run_l l (S done)
      (((t ++ [EvRequest (req (x_word, y_word))])
          ++ [EvResult xi yi
                {| cr_x := x_word; cr_y := y_word;
                   cr_query := build_query question_template x_word y_word;
                   cr_answer := strip (text_or_empty r) |}])
         ++ [EvProgress (S done) total]).
Proof.
  intros H. unfold pair_request in *. cbn [run_steps fst snd] in *.
  unfold bind at 1. unfold gen_response, bind at 1, generate_content.
  rewrite H. reflexivity.
Qed.

Lemma pair_step_fail (xi yi : nat) (x_word y_word : pystr) (l : list step)
  (done : nat) (t : trace) (d : pystr) :
  c (ncalls t) (req (x_word, y_word)) = Fail d ->
  run_l (StepPair xi yi x_word y_word :: l) done t
  = (Raise (BackendError d), t ++ [EvRequest (req (x_word, y_word))]).
Proof.
  intros H. unfold pair_request in *. cbn [run_steps fst snd] in *.
  unfold bind at 1. unfold gen_response, bind at 1, generate_content.
  rewrite H. reflexivity.
Qed.

Lemma progress_steps_S (d n : nat) :
  progress_steps total d (S n) = (S d, total) :: progress_steps total (S d) n.
Proof. reflexivity. Qed.

(** When no request fails, every step is run. *)
Lemma run_steps_ok (l : list step) (done : nat) (t : trace) :
  first_failure c (ncalls t) (map req (step_pairs l)) = None ->
  exists t',
    run_l l done t = (Ok (done + length (step_pairs l)), t')
    /\ results_of t'
       = results_of t
         ++ results_from c model_name question_template (ncalls t) (step_pairs l)
    /\ result_ids_of t' = result_ids_of t ++ step_ids l
    /\ requests_of t' = requests_of t ++ map req (step_pairs l)
    /\ progress_of t'
       = progress_of t ++ progress_steps total done (length (step_pairs l)).
Proof.
  revert done t.
  induction l as [|s l IH]; intros done t H.
  - exists t. cbn. rewrite Nat.add_0_r, !app_nil_r. repeat split; reflexivity.
  - destruct s as [x_word | xi yi x_word y_word].
    + rewrite heading_step. cbn [step_pairs step_ids] in *.
      destruct (IH done (t ++ [EvHeadingX x_word])) as (t' & E & P).
      { autorewrite with trace. cbn. now rewrite Nat.add_0_r. }
      exists t'. split; [exact E|].
      autorewrite with trace in P. cbn in P.
      now rewrite Nat.add_0_r, !app_nil_r in P.
    + cbn [step_pairs step_ids map first_failure length] in *.
      destruct (c (ncalls t) (req (x_word, y_word))) as [r|d] eqn:Hc;
        [|discriminate].
      destruct (first_failure c (S (ncalls t)) (map req (step_pairs l)))
        as [[i d]|] eqn:Hff; [discriminate|].
      rewrite pair_step_reply with (r := r) by exact Hc.
      match goal with |- context [run_l l (S done) ?u] => set (t3 := u) end.
      assert (Hn : ncalls t3 = S (ncalls t)).
      { unfold t3. autorewrite with trace. cbn. lia. }
      destruct (IH (S done) t3) as (t' & E & R & I & Q & P).
      { now rewrite Hn. }
      exists t'. split; [rewrite E; f_equal; f_equal; lia|].
      rewrite R, I, Q, P, Hn. unfold t3. autorewrite with trace. cbn.
      rewrite !app_nil_r, <- !app_assoc. cbn.
      rewrite Hc. cbn. repeat split; reflexivity.
Qed.

(** When a request fails, the run stops there with the error. *)
Lemma run_steps_fail (l : list step) (done : nat) (t : trace)
  (i : nat) (d : pystr) :
  first_failure c (ncalls t) (map req (step_pairs l)) = Some (i, d) ->
  exists t',
    run_l l done t = (Raise (BackendError d), t')
    /\ results_of t'
       = results_of t
         ++ results_from c model_name question_template (ncalls t)
              (firstn i (step_pairs l))
    /\ requests_of t' = requests_of t ++ firstn (S i) (map req (step_pairs l))
    /\ progress_of t' = progress_of t ++ progress_steps total done i
    /\ i < length (step_pairs l).
Proof.
  revert done t i.
  induction l as [|s l IH]; intros done t i H.
  - discriminate.
  - destruct s as [x_word | xi yi x_word y_word].
    + rewrite heading_step. cbn [step_pairs] in *.
      destruct (IH done (t ++ [EvHeadingX x_word]) i) as (t' & E & P).
      { autorewrite with trace. cbn. now rewrite Nat.add_0_r. }
      exists t'. split; [exact E|].
      autorewrite with trace in P. cbn in P.
      now rewrite Nat.add_0_r, !app_nil_r in P.
    + cbn [step_pairs map first_failure length] in *.
      destruct (c (ncalls t) (req (x_word, y_word))) as [r|d'] eqn:Hc.
      * destruct (first_failure c (S (ncalls t)) (map req (step_pairs l)))
          as [[j d']|] eqn:Hff; [|discriminate].
        injection H as <- <-.
        rewrite pair_step_reply with (r := r) by exact Hc.
        match goal with |- context [run_l l (S done) ?u] => set (t3 := u) end.
        assert (Hn : ncalls t3 = S (ncalls t)).
        { unfold t3. autorewrite with trace. cbn. lia. }
        destruct (IH (S done) t3 j) as (t' & E & R & Q & P & L).
        { now rewrite Hn. }
        exists t'. split; [exact E|].
        rewrite R, Q, P, Hn. unfold t3. autorewrite with trace. cbn.
        rewrite !app_nil_r, <- !app_assoc. cbn.
        rewrite Hc. cbn. repeat split; try reflexivity. lia.
      * injection H as <- <-.
        rewrite pair_step_fail with (d := d') by exact Hc.
        eexists. split; [reflexivity|].
        autorewrite with trace. cbn. rewrite !app_nil_r.
        repeat split; try reflexivity. lia.
Qed.
End RunSteps.

(** ** The empty-list guard *)

Section Guard.
Variable B : builtins.
Variable backend : client.

Lemma list_gen_trace (model prompt : pystr) (t t1 : trace) (l : list pystr) :
  list_gen B backend model prompt t = (Ok l, t1) ->
  t1 = t ++ [EvRequest {| req_model := model; req_contents := prompt;
                          req_config := CfgJsonList |}].
Proof.
  unfold list_gen, bind, generate_content, lift.
  destruct (backend (ncalls t) _) as [r|d]; [|discriminate].
  intros H. now injection H as _ <-.
Qed.

(** Resolution renders no result and sends no per-pair request. *)
Lemma resolve_lists_trace (inp : inputs) (t t1 : trace)
  (X_list Y_list : list pystr) :
  resolve_lists B backend inp t = (Ok (X_list, Y_list), t1) ->
  results_of t1 = results_of t
  /\ pair_calls_of t1 = pair_calls_of t
  /\ progress_of t1 = progress_of t.
Proof.
  unfold resolve_lists.
  destruct (list_mode inp) as [x_topics y_topics | x_manual y_manual].
  - unfold bind at 1.
    destruct (list_gen B backend (model_name inp) x_topics t)
      as [[lx|e|] t2] eqn:Ex; try discriminate.
    unfold bind at 1.
    destruct (list_gen B backend (model_name inp) y_topics t2)
      as [[ly|e|] t3] eqn:Ey; try discriminate.
    unfold ret. intros H. injection H as _ _ <-.
    apply list_gen_trace in Ex, Ey. subst t3 t2.
    autorewrite with trace. cbn. rewrite !app_nil_r. now repeat split.
  - unfold ret. intros H. injection H as _ _ <-. now repeat split.
Qed.

Lemma app_run_guard_stops (inp : inputs) (t t1 : trace)
  (X_list Y_list : list pystr) :
  run inp = true -> truthy (api_key inp) = true ->
  resolve_lists B backend inp t = (Ok (X_list, Y_list), t1) ->
  negb (list_truthy X_list) || negb (list_truthy Y_list) = true ->
  app_run B backend inp t = (Stop, t1 ++ [EvWarningEmptyList]).
Proof.
  intros Hrun Hkey Hres Hg.
  unfold app_run, make_client. rewrite Hrun, Hkey.
  unfold bind at 1. unfold ret at 1. unfold bind at 1. unfold ret at 1.
  unfold bind at 1. rewrite Hres. unfold bind at 1. rewrite Hg.
  reflexivity.
Qed.
(** Past the guard, the script runs the combinations and then reports
    the end of the run. *)
Lemma app_run_after_resolution (inp : inputs) (t t1 : trace)
  (X_list Y_list : list pystr) :
  run inp = true -> truthy (api_key inp) = true ->
  resolve_lists B backend inp t = (Ok (X_list, Y_list), t1) ->
  list_truthy X_list = true -> list_truthy Y_list = true ->
  app_run B backend inp t
  = bind (run_combinations backend (model_name inp) (question_template inp)
            X_list Y_list)
      (fun _ => emit EvSuccessDone ;;; emit EvBalloons)
      ((t1 ++ [EvSuccessCounts (length X_list) (length Y_list)]) ++ [EvRule]).
Proof.
  intros Hrun Hkey Hres HX HY.
  unfold app_run, make_client. rewrite Hrun, Hkey.
  unfold bind at 1. unfold ret at 1. unfold bind at 1. unfold ret at 1.
  unfold bind at 1. rewrite Hres. unfold bind at 1. rewrite HX, HY.
  reflexivity.
Qed.
End Guard.

Section Runner.
Variable c : client.
Variables model_name question_template : pystr.

Lemma results_from_length (n : nat) (pairs : list (pystr * pystr)) :
  length (results_from c model_name question_template n pairs) = length pairs.
Proof.
  revert n. induction pairs as [|xy pairs IH]; intros n; simpl; [reflexivity|].
  now rewrite IH.
Qed.

Lemma results_from_pairs (n : nat) (pairs : list (pystr * pystr)) :
  map (fun r => (cr_x r, cr_y r))
    (results_from c model_name question_template n pairs) = pairs.
Proof.
  revert n. induction pairs as [|[x y] pairs IH]; intros n; simpl; [reflexivity|].
  now rewrite IH.
Qed.

Lemma results_from_queries (n : nat) (pairs : list (pystr * pystr)) :
  map cr_query (results_from c model_name question_template n pairs)
  = map (fun xy => build_query question_template (fst xy) (snd xy)) pairs.
Proof.
  revert n. induction pairs as [|[x y] pairs IH]; intros n; simpl; [reflexivity|].
  now rewrite IH.
Qed.

(** The runner is the run of the steps of the two lists, after the
    progress bar is created. *)
Lemma run_combinations_steps (X_list Y_list : list pystr) (t : trace) :
  run_combinations c model_name question_template X_list Y_list t
  = run_steps c model_name question_template
      (length X_list * length Y_list)
      (steps_of (enumerate X_list) (enumerate Y_list)) 0
      (t ++ [EvProgressBar]).
Proof. unfold run_combinations, bind, emit. apply x_loop_steps. Qed.

Lemma step_pairs_lists (X_list Y_list : list pystr) :
  step_pairs (steps_of (enumerate X_list) (enumerate Y_list))
  = list_prod X_list Y_list.
Proof. now rewrite step_pairs_steps_of, !map_snd_enumerate. Qed.

Lemma step_ids_lists (X_list Y_list : list pystr) :
  step_ids (steps_of (enumerate X_list) (enumerate Y_list))
  = list_prod (seq 0 (length X_list)) (seq 0 (length Y_list)).
Proof. now rewrite step_ids_steps_of, !map_fst_enumerate. Qed.

Lemma ncalls_progress_bar (t : trace) : ncalls (t ++ [EvProgressBar]) = ncalls t.
Proof. rewrite ncalls_app. cbn. lia. Qed.
End Runner.

(** C4: when no backend call of the run fails, the runner completes with
    one result per pair of the Cartesian product, in row-major order (X
    outer, Y inner, both in list order); there are |X_list| × |Y_list| of
    them, the i-th answering the i-th request; the progress counter goes
    1, 2, ..., total, one step per pair, and ends at total.  For the lists
    "Mfg" and "Cost" and the template "In X, about Y" there is one result,
    with query "In Mfg, about Cost". *)
Theorem C4_runner_all_pairs_row_major
  (c : client) (model_name question_template : pystr)
  (X_list Y_list : list pystr) (t : trace)
  (Hok : first_failure c (ncalls t)
           (map (pair_request model_name question_template)
              (list_prod X_list Y_list)) = None) :
  let total := length X_list * length Y_list in
  let results :=
    results_from c model_name question_template (ncalls t)
      (list_prod X_list Y_list) in
  exists t',
    run_combinations c model_name question_template X_list Y_list t
    = (Ok total, t')
    /\ results_of t' = results_of t ++ results
    /\ length results = total
    /\ map (fun r => (cr_x r, cr_y r)) results = list_prod X_list Y_list
    /\ map cr_query results
       = map (fun xy => build_query question_template (fst xy) (snd xy))
           (list_prod X_list Y_list)
    /\ result_ids_of t'
       = result_ids_of t
         ++ list_prod (seq 0 (length X_list)) (seq 0 (length Y_list))
    /\ requests_of t'
       = requests_of t
         ++ map (pair_request model_name question_template)
              (list_prod X_list Y_list)
    /\ progress_of t'
       = progress_of t ++ map (fun k => (k, total)) (seq 1 total)
    /\ run_combinations client_ok (lit "m") (lit "In X, about Y")
         [lit "Mfg"] [lit "Cost"] []
       = (Ok 1,
          [EvProgressBar; EvHeadingX (lit "Mfg");
           EvRequest {| req_model := lit "m";
                        req_contents := lit "In Mfg, about Cost";
                        req_config := CfgGrounding |};
           EvResult 0 0 {| cr_x := lit "Mfg"; cr_y := lit "Cost";
                           cr_query := lit "In Mfg, about Cost";
                           cr_answer := lit "ok" |};
           EvProgress 1 1]).
Proof.
  intros total results.
  rewrite run_combinations_steps.
  destruct (run_steps_ok c model_name question_template total
              (steps_of (enumerate X_list) (enumerate Y_list)) 0
              (t ++ [EvProgressBar])) as (t' & E & R & I & Q & P).
  { now rewrite ncalls_progress_bar, step_pairs_lists. }
  rewrite ncalls_progress_bar, step_pairs_lists in *.
  rewrite step_ids_lists in I.
  autorewrite with trace in R, I, Q, P. cbn in R, I, Q, P.
  rewrite !app_nil_r in *. rewrite length_prod in *.
  exists t'. split; [exact E|]. split; [exact R|].
  split; [unfold results; now rewrite results_from_length, length_prod|].
  split; [apply results_from_pairs|].
  split; [apply results_from_queries|].
  split; [exact I|]. split; [exact Q|]. split; [exact P|].
  reflexivity.
Qed.

Lemma C4_runner_two_by_three_witness :
  let pairs := list_prod [lit "a"; lit "b"] [lit "p"; lit "q"; lit "r"] in
  let results := results_from client_ok (lit "m") (lit "X/Y") 0 pairs in
  exists t',
    run_combinations client_ok (lit "m") (lit "X/Y")
      [lit "a"; lit "b"] [lit "p"; lit "q"; lit "r"] []
    = (Ok 6, t')
    /\ results_of t' = results
    /\ length results = 6
    /\ map (fun r => (cr_x r, cr_y r)) results = pairs
    /\ map cr_query results
       = [lit "a/p"; lit "a/q"; lit "a/r"; lit "b/p"; lit "b/q"; lit "b/r"]
    /\ result_ids_of t' = [(0, 0); (0, 1); (0, 2); (1, 0); (1, 1); (1, 2)]
    /\ progress_of t' = [(1, 6); (2, 6); (3, 6); (4, 6); (5, 6); (6, 6)].
Proof.
  intros pairs results.
  destruct (@C4_runner_all_pairs_row_major client_ok (lit "m") (lit "X/Y")
              [lit "a"; lit "b"] [lit "p"; lit "q"; lit "r"] [] eq_refl)
    as (t' & E & R & L & XY & QS & I & Q & P & _).
  exists t'. repeat split; assumption.
Defined.

(** C5: when the first backend call to fail is the one of pair number
    i + 1 (in row-major order), the run ends there with that error: the
    results rendered are exactly those of the first i pairs, the requests
    sent are those of the first i + 1 pairs, once each and in order, and
    the progress counter stopped at i.  With six pairs and a backend whose
    fourth call fails, three results are rendered. *)
Theorem C5_backend_failure_aborts_run
  (c : client) (model_name question_template : pystr)
  (X_list Y_list : list pystr) (t : trace) (i : nat) (detail : pystr)
  (Hfail : first_failure c (ncalls t)
             (map (pair_request model_name question_template)
                (list_prod X_list Y_list)) = Some (i, detail)) :
  let total := length X_list * length Y_list in
  let results :=
    results_from c model_name question_template (ncalls t)
      (firstn i (list_prod X_list Y_list)) in
  exists t',
    run_combinations c model_name question_template X_list Y_list t
    = (Raise (BackendError detail), t')
    /\ i < total
    /\ results_of t' = results_of t ++ results
    /\ length results = i
    /\ requests_of t'
       = requests_of t
         ++ map (pair_request model_name question_template)
              (firstn (S i) (list_prod X_list Y_list))
    /\ progress_of t' = progress_of t ++ map (fun k => (k, total)) (seq 1 i)
    /\ (let out := app_run sample_builtins client_fails_fourth
                     (inputs_manual (lit "a" ++ nl ++ lit "b")
                        (lit "p" ++ nl ++ lit "q" ++ nl ++ lit "r")) [] in
        fst out = Raise (BackendError (lit "quota"))
        /\ length (results_of (snd out)) = 3
        /\ length (requests_of (snd out)) = 4).
Proof.
  intros total results.
  rewrite run_combinations_steps.
  destruct (run_steps_fail c model_name question_template total
              (steps_of (enumerate X_list) (enumerate Y_list)) 0
              (t ++ [EvProgressBar]) (i := i) (d := detail))
    as (t' & E & R & Q & P & L).
  { now rewrite ncalls_progress_bar, step_pairs_lists. }
  rewrite ncalls_progress_bar, step_pairs_lists in *.
  autorewrite with trace in R, Q, P. cbn in R, Q, P.
  rewrite !app_nil_r in *. rewrite length_prod in L.
  exists t'. split; [exact E|]. split; [exact L|]. split; [exact R|].
  split.
  { unfold results. rewrite results_from_length, length_firstn, length_prod.
    apply Nat.min_l. unfold total in L. lia. }
  split; [now rewrite <- firstn_map|]. split; [exact P|].
  repeat split; reflexivity.
Qed.

Lemma C5_fourth_of_six_witness :
  let pairs := list_prod [lit "a"; lit "b"] [lit "p"; lit "q"; lit "r"] in
  exists t',
    run_combinations client_fails_fourth (lit "m") (lit "X/Y")
      [lit "a"; lit "b"] [lit "p"; lit "q"; lit "r"] []
    = (Raise (BackendError (lit "quota")), t')
    /\ map cr_query (results_of t') = [lit "a/p"; lit "a/q"; lit "a/r"]
    /\ map req_contents (requests_of t')
       = [lit "a/p"; lit "a/q"; lit "a/r"; lit "b/p"]
    /\ progress_of t' = [(1, 6); (2, 6); (3, 6)].
Proof.
  intros pairs.
  destruct (@C5_backend_failure_aborts_run client_fails_fourth (lit "m")
              (lit "X/Y") [lit "a"; lit "b"] [lit "p"; lit "q"; lit "r"] []
              3 (lit "quota") eq_refl)
    as (t' & E & _ & R & _ & Q & P & _).
  exists t'. split; [exact E|].
  split; [rewrite R; reflexivity|].
  split; [rewrite Q; reflexivity | exact P].
Defined.


(** C6: when the resolution of the lists ends with X_list or Y_list empty,
    the run stops at the guard: the warning is the only event after the
    resolution, no result is rendered, no per-pair request is sent and the
    progress counter is never advanced. *)
Theorem C6_empty_list_stops_before_runner
  (B : builtins) (backend : client) (inp : inputs) (t t1 : trace)
  (X_list Y_list : list pystr)
  (Hrun : run inp = true) (Hkey : truthy (api_key inp) = true)
  (Hres : resolve_lists B backend inp t = (Ok (X_list, Y_list), t1))
  (Hempty : X_list = [] \/ Y_list = []) :
  app_run B backend inp t = (Stop, t1 ++ [EvWarningEmptyList])
  /\ results_of (t1 ++ [EvWarningEmptyList]) = results_of t
  /\ pair_calls_of (t1 ++ [EvWarningEmptyList]) = pair_calls_of t
  /\ progress_of (t1 ++ [EvWarningEmptyList]) = progress_of t.
Proof.
  destruct (resolve_lists_trace B backend inp t Hres) as (R & Q & P).
  split.
  - apply app_run_guard_stops with (X_list := X_list) (Y_list := Y_list);
      try assumption.
    destruct Hempty as [-> | ->]; [reflexivity|].
    simpl. apply orb_true_r.
  - autorewrite with trace. cbn. rewrite !app_nil_r. now repeat split.
Qed.

Lemma C6_empty_x_list_witness :
  app_run sample_builtins client_ok (inputs_manual (lit "  ") (lit "p")) []
  = (Stop, [] ++ [EvWarningEmptyList])
  /\ results_of ([] ++ [EvWarningEmptyList]) = results_of []
  /\ pair_calls_of ([] ++ [EvWarningEmptyList]) = pair_calls_of []
  /\ progress_of ([] ++ [EvWarningEmptyList]) = progress_of [].
Proof.
  apply (@C6_empty_list_stops_before_runner sample_builtins client_ok
           (inputs_manual (lit "  ") (lit "p")) [] [] [] [lit "p"]).
  - reflexivity.
  - reflexivity.
  - reflexivity.
  - left. reflexivity.
Defined.

(** ** The whole script *)

Section Script.
Variable B : builtins.
Variable backend : client.

Lemma list_prod_nil_r {A C} (l : list A) : list_prod l (@nil C) = [].
Proof. induction l as [|a l IH]; simpl; [reflexivity | exact IH]. Qed.

(** X20: nothing in the script catches a backend failure of the run: it
    ends the script, after the results of the pairs before it. *)
Lemma app_run_backend_failure (inp : inputs) (t t1 : trace)
  (X_list Y_list : list pystr) (i : nat) (detail : pystr) :
  run inp = true -> truthy (api_key inp) = true ->
  resolve_lists B backend inp t = (Ok (X_list, Y_list), t1) ->
  first_failure backend (ncalls t1)
    (map (pair_request (model_name inp) (question_template inp))
       (list_prod X_list Y_list)) = Some (i, detail) ->
  exists t',
    app_run B backend inp t = (Raise (BackendError detail), t')
    /\ results_of t'
       = results_of t
         ++ results_from backend (model_name inp) (question_template inp)
              (ncalls t1) (firstn i (list_prod X_list Y_list)).
Proof.
  intros Hrun Hkey Hres Hff.
  assert (HX : list_truthy X_list = true)
    by (destruct X_list; [discriminate Hff | reflexivity]).
  assert (HY : list_truthy Y_list = true).
  { destruct Y_list; [|reflexivity].
    rewrite list_prod_nil_r in Hff. discriminate Hff. }
  rewrite app_run_after_resolution
    with (t1 := t1) (X_list := X_list) (Y_list := Y_list) by assumption.
  unfold bind at 1. rewrite run_combinations_steps.
  match goal with
  | |- context [run_steps _ _ _ ?n ?l 0 ?u] =>
      destruct (run_steps_fail backend (model_name inp) (question_template inp)
                  n l 0 u (i := i) (d := detail)) as (t' & E & R & _)
  end.
  { rewrite step_pairs_lists. autorewrite with trace. cbn.
    now rewrite !Nat.add_0_r. }
  exists t'. rewrite E. split; [reflexivity|].
  rewrite R, step_pairs_lists. autorewrite with trace. cbn.
  rewrite !Nat.add_0_r, !app_nil_r.
  destruct (resolve_lists_trace B backend inp t Hres) as (-> & _).
  reflexivity.
Qed.

(** When no backend call fails, the script ends after the last pair with
    its two closing signals. *)
Lemma app_run_completes (inp : inputs) (t t1 : trace)
  (X_list Y_list : list pystr) :
  run inp = true -> truthy (api_key inp) = true ->
  resolve_lists B backend inp t = (Ok (X_list, Y_list), t1) ->
  list_truthy X_list = true -> list_truthy Y_list = true ->
  first_failure backend (ncalls t1)
    (map (pair_request (model_name inp) (question_template inp))
       (list_prod X_list Y_list)) = None ->
  exists t',
    app_run B backend inp t = (Ok tt, (t' ++ [EvSuccessDone]) ++ [EvBalloons])
    /\ results_of t'
       = results_of t
         ++ results_from backend (model_name inp) (question_template inp)
              (ncalls t1) (list_prod X_list Y_list).
Proof.
  intros Hrun Hkey Hres HX HY Hff.
  rewrite app_run_after_resolution
    with (t1 := t1) (X_list := X_list) (Y_list := Y_list) by assumption.
  unfold bind at 1. rewrite run_combinations_steps.
  match goal with
  | |- context [run_steps _ _ _ ?n ?l 0 ?u] =>
      destruct (run_steps_ok backend (model_name inp) (question_template inp)
                  n l 0 u) as (t' & E & R & _)
  end.
  { rewrite step_pairs_lists. autorewrite with trace. cbn.
    now rewrite !Nat.add_0_r. }
  exists t'. rewrite E. split; [reflexivity|].
  rewrite R, step_pairs_lists. autorewrite with trace. cbn.
  rewrite !Nat.add_0_r, !app_nil_r.
  destruct (resolve_lists_trace B backend inp t Hres) as (-> & _).
  reflexivity.
Qed.
End Script.

Import Render.


(** * Further properties *)

(** ** Queries *)

Section QueryFacts.

Lemma contains_app (c : N) (a b : pystr) :
  contains c (a ++ b) = contains c a || contains c b.
Proof. unfold contains. apply existsb_app. Qed.

Lemma contains_flat_map_false (c : N) (f : N -> pystr) (s : pystr) :
  (forall d, In d s -> contains c (f d) = false) ->
  contains c (flat_map f s) = false.
Proof.
  induction s as [|d s IH]; simpl; intros H; [reflexivity|].
  rewrite contains_app, (H d (or_introl eq_refl)), IH; [reflexivity|].
  intros e He. apply H. now right.
Qed.

Lemma contains_single (c d : N) : contains c [d] = (c =? d)%N.
Proof. unfold contains. simpl. apply orb_false_r. Qed.
End QueryFacts.

(** X1: the query of a concatenated template is the concatenation of the
    queries of its parts: the two placeholders are single characters, so a
    match never straddles the cut. *)
Theorem build_query_app (t1 t2 x y : pystr) :
  build_query (t1 ++ t2) x y = build_query t1 x y ++ build_query t2 x y.
Proof. rewrite !build_query_pointwise. apply flat_map_app. Qed.

(** X2: a template without "X" and without "Y" is sent as it is, whatever
    the topics. *)
Theorem build_query_no_placeholder (t x y : pystr)
  (HX : contains 88 t = false) (HY : contains 89 t = false) :
  build_query t x y = t.
Proof.
  rewrite build_query_pointwise. apply flat_map_id_when.
  intros c Hc.
  rewrite (contains_false _ _ HX c Hc), (contains_false _ _ HY c Hc).
  reflexivity.
Qed.

Lemma build_query_no_placeholder_witness :
  build_query (lit "What is new?") (lit "Mfg") (lit "Cost") = lit "What is new?".
Proof. apply build_query_no_placeholder; reflexivity. Defined.

(** X3: when the Y topic holds no "Y", the query holds no "Y": every one
    of the template and of the X topic has been replaced. *)
Theorem build_query_no_Y_left (t x y : pystr)
  (Hy : contains 89 y = false) :
  contains 89 (build_query t x y) = false.
Proof.
  rewrite build_query_pointwise. apply contains_flat_map_false.
  intros c _.
  destruct (c =? 88)%N.
  - change (lit "Y") with [89%N]. rewrite replace_char.
    apply contains_flat_map_false. intros d _.
    destruct (d =? 89)%N eqn:E; [exact Hy|].
    rewrite contains_single, N.eqb_sym. exact E.
  - destruct (c =? 89)%N eqn:E; [exact Hy|].
    rewrite contains_single, N.eqb_sym. exact E.
Qed.

Lemma build_query_no_Y_left_witness :
  contains 89 (build_query (lit "XY and Y") (lit "aYb") (lit "X1")) = false.
Proof. apply build_query_no_Y_left. reflexivity. Defined.

(** X4: when neither topic holds an "X", the query holds no "X". *)
Theorem build_query_no_X_left (t x y : pystr)
  (Hx : contains 88 x = false) (Hy : contains 88 y = false) :
  contains 88 (build_query t x y) = false.
Proof.
  rewrite build_query_pointwise. apply contains_flat_map_false.
  intros c _.
  destruct (c =? 88)%N eqn:E8.
  - change (lit "Y") with [89%N]. rewrite replace_char.
    apply contains_flat_map_false. intros d Hd.
    destruct (d =? 89)%N; [exact Hy|].
    rewrite contains_single, N.eqb_sym.
    exact (contains_false _ _ Hx d Hd).
  - destruct (c =? 89)%N; [exact Hy|].
    rewrite contains_single, N.eqb_sym. exact E8.
Qed.

Lemma build_query_no_X_left_witness :
  contains 88 (build_query (lit "XY and X") (lit "aYb") (lit "c")) = false.
Proof. apply build_query_no_X_left; reflexivity. Defined.

(** ** Blank strings and lines *)

Section BlankFacts.
Variable p : N -> bool.

Lemma lstrip_by_nil_iff (s : pystr) :
  lstrip_by p s = [] <-> forallb p s = true.
Proof.
  induction s as [|c s IH]; simpl; [tauto|].
  destruct (p c); simpl; [exact IH|]. split; discriminate.
Qed.

Lemma forallb_rev (s : pystr) : forallb p (rev s) = forallb p s.
Proof.
  induction s as [|c s IH]; simpl; [reflexivity|].
  rewrite forallb_app, IH. simpl. rewrite andb_true_r. apply andb_comm.
Qed.

(** Stripping leaves nothing exactly when every character is stripped. *)
Lemma strip_by_nil_iff (s : pystr) :
  strip_by p s = [] <-> forallb p s = true.
Proof.
  unfold strip_by, rstrip_by. split.
  - intros H. apply (f_equal (@rev N)) in H. rewrite rev_involutive in H.
    simpl in H. apply lstrip_by_nil_iff in H. rewrite forallb_rev in H.
    apply lstrip_by_nil_iff.
    destruct (lstrip_by p s) as [|c r] eqn:E; [reflexivity|].
    apply lstrip_by_head in E. simpl in H. rewrite E in H. discriminate.
  - intros H. apply lstrip_by_nil_iff in H. now rewrite H.
Qed.

Lemma truthy_strip_by (s : pystr) :
  truthy (strip_by p s) = negb (forallb p s).
Proof.
  destruct (forallb p s) eqn:E.
  - apply strip_by_nil_iff in E. now rewrite E.
  - destruct (strip_by p s) eqn:E'; [|reflexivity].
    apply strip_by_nil_iff in E'. congruence.
Qed.
End BlankFacts.

Lemma truthy_strip (s : pystr) : truthy (strip s) = negb (blank s).
Proof. apply truthy_strip_by. Qed.

(** Every line boundary is a whitespace character. *)
Lemma islinebreak_isspace (c : N) : islinebreak c = true -> isspace c = true.
Proof.
  unfold islinebreak, isspace. intros H.
  repeat rewrite ?orb_true_iff, ?andb_true_iff, ?N.leb_le, ?N.eqb_eq in *.
  lia.
Qed.

Section LineCharacters.

(** A character of a line is a character of the text. *)
Lemma splitlines_from_chars (s cur line : pystr) (c : N) :
  In line (splitlines_from cur s) -> In c line -> In c (rev cur ++ s).
Proof.
  revert cur.
  induction s as [|a s IH]; intros cur Hl Hc; simpl in Hl.
  - rewrite app_nil_r. destruct cur; [contradiction|].
    destruct Hl as [<-|[]]. exact Hc.
  - destruct (islinebreak a) eqn:E.
    + destruct Hl as [<-|Hl]; [apply in_or_app; now left|].
      apply in_or_app. right. right.
      destruct s as [|d s'']; [contradiction|].
      destruct ((a =? 13)%N && (d =? 10)%N) eqn:E2.
      * apply andb_prop in E2 as [_ Ed]. apply N.eqb_eq in Ed. subst d.
        apply (IH []). rewrite splitlines_from_lf. now right. exact Hc.
      * apply (IH [] Hl Hc).
    + specialize (IH (a :: cur) Hl Hc). simpl in IH.
      now rewrite <- app_assoc in IH.
Qed.

(** A character of the text that is not a boundary is on some line. *)
Lemma splitlines_from_covers (s cur : pystr) (c : N) :
  In c (rev cur ++ s) -> islinebreak c = false ->
  exists line, In line (splitlines_from cur s) /\ In c line.
Proof.
  revert cur.
  induction s as [|a s IH]; intros cur Hc Hb; simpl.
  - rewrite app_nil_r in Hc. destruct cur; [contradiction|].
    eexists. split; [now left | exact Hc].
  - apply in_app_or in Hc.
    destruct (islinebreak a) eqn:E.
    + destruct Hc as [Hc|[->|Hc]]; [| congruence |].
      * eexists. split; [now left | exact Hc].
      * destruct s as [|d s'']; [contradiction|].
        destruct ((a =? 13)%N && (d =? 10)%N) eqn:E2.
        -- apply andb_prop in E2 as [_ Ed]. apply N.eqb_eq in Ed. subst d.
           destruct Hc as [<-|Hc]; [discriminate Hb|].
           destruct (IH [] (or_intror Hc) Hb) as (line & Hl & Hin).
           rewrite splitlines_from_lf in Hl.
           destruct Hl as [<-|Hl]; [contradiction|].
           exists line. split; [now right | exact Hin].
        -- destruct (IH [] Hc Hb) as (line & Hl & Hin).
           exists line. split; [now right | exact Hin].
    + apply (IH (a :: cur)); [|exact Hb].
      simpl. rewrite <- app_assoc. apply in_or_app.
      destruct Hc as [Hc|Hc]; [now left | now right].
Qed.

(** No line is kept exactly when every line is blank. *)
Lemma stripped_lines_nil_iff (lines : list pystr) :
  stripped_lines lines = [] <-> Forall (fun ln => blank ln = true) lines.
Proof.
  induction lines as [|ln lines IH]; simpl; [split; [constructor|reflexivity]|].
  rewrite truthy_strip.
  destruct (blank ln) eqn:E; simpl.
  - rewrite IH. split; [now constructor | now inversion 1].
  - split; [discriminate|]. inversion 1. congruence.
Qed.

Lemma bullet_lines_nil_iff (lines : list pystr) :
  bullet_lines lines = [] <-> Forall (fun ln => blank ln = true) lines.
Proof.
  induction lines as [|ln lines IH]; simpl; [split; [constructor|reflexivity]|].
  rewrite truthy_strip.
  destruct (blank ln) eqn:E; simpl.
  - rewrite IH. split; [now constructor | now inversion 1].
  - split; [discriminate|]. inversion 1. congruence.
Qed.

(** The lines of a text are all blank exactly when the text is. *)
Lemma splitlines_blank_iff (s : pystr) :
  Forall (fun ln => blank ln = true) (splitlines s) <-> blank s = true.
Proof.
  unfold blank, splitlines. split.
  - intros H. apply forallb_forall. intros c Hc.
    destruct (islinebreak c) eqn:E; [now apply islinebreak_isspace|].
    destruct (@splitlines_from_covers s [] c Hc E) as (line & Hl & Hin).
    rewrite Forall_forall in H. specialize (H line Hl).
    rewrite forallb_forall in H. now apply H.
  - intros H. apply Forall_forall. intros line Hl.
    apply forallb_forall. intros c Hc.
    rewrite forallb_forall in H. apply H.
    apply (@splitlines_from_chars s [] line c Hl Hc).
Qed.
End LineCharacters.

(** X5: the manual resolver returns the empty list exactly when the text
    is blank (empty, or made of whitespace and line breaks only); this is
    when the guard stops the run. *)
Theorem manual_list_nil_iff_blank (text : pystr) :
  manual_list text = [] <-> blank text = true.
Proof.
  unfold manual_list. rewrite stripped_lines_nil_iff. apply splitlines_blank_iff.
Qed.

Section ManualComposition.

Lemma stripped_lines_cons (ln : pystr) (lines : list pystr) :
  stripped_lines (ln :: lines) = stripped_lines [ln] ++ stripped_lines lines.
Proof. simpl. destruct (truthy (strip ln)); reflexivity. Qed.

Lemma stripped_lines_cons_eq (ln : pystr) (l r t : list pystr) :
  stripped_lines l = stripped_lines r ++ t ->
  stripped_lines (ln :: l) = stripped_lines (ln :: r) ++ t.
Proof. simpl. intros ->. destruct (truthy (strip ln)); reflexivity. Qed.

(** Splitting two texts joined by a line feed gives the lines of the
    first, then those of the second, up to one empty line in between. *)
Lemma stripped_lines_split_lf (a b cur : pystr) :
  stripped_lines (splitlines_from cur (a ++ 10%N :: b))
  = stripped_lines (splitlines_from cur a) ++ stripped_lines (splitlines b).
Proof.
  unfold splitlines. revert cur.
  induction a as [|c a IH]; intros cur.
  - simpl app. rewrite splitlines_from_lf, stripped_lines_cons.
    destruct cur; reflexivity.
  - cbn [app splitlines_from].
    destruct (islinebreak c) eqn:E; [|apply IH].
    apply stripped_lines_cons_eq.
    destruct a as [|d a'']; cbn [app].
    + destruct ((c =? 13)%N && (10 =? 10)%N); [reflexivity|].
      rewrite splitlines_from_lf. reflexivity.
    + destruct ((c =? 13)%N && (d =? 10)%N) eqn:E2; [|apply IH].
      apply andb_prop in E2 as [_ Ed]. apply N.eqb_eq in Ed. subst d.
      specialize (IH []). cbn [app] in IH.
      rewrite !splitlines_from_lf in IH. exact IH.
Qed.

Lemma manual_list_lf (a b : pystr) :
  manual_list (a ++ nl ++ b) = manual_list a ++ manual_list b.
Proof. apply stripped_lines_split_lf. Qed.
End ManualComposition.

(** X6: the manual resolver of texts joined by line feeds is the
    concatenation of their lists: pasting one list under another adds
    its entries after those of the first. *)
Theorem manual_list_join (parts : list pystr) :
  manual_list (join nl parts) = concat (map manual_list parts).
Proof.
  induction parts as [|p parts IH]; [reflexivity|].
  destruct parts as [|q parts].
  - simpl. now rewrite app_nil_r.
  - change (join nl (p :: q :: parts)) with (p ++ nl ++ join nl (q :: parts)).
    rewrite manual_list_lf, IH. reflexivity.
Qed.

(** ** The third tier *)

Section TierLines.
Variable B : builtins.

Lemma blank_strip (s : pystr) : blank (strip s) = blank s.
Proof.
  destruct (blank s) eqn:E.
  - apply strip_by_nil_iff in E. unfold strip. now rewrite E.
  - destruct (blank (strip s)) eqn:E'; [|reflexivity].
    apply strip_by_nil_iff in E'. fold (strip (strip s)) in E'.
    rewrite strip_idempotent in E'.
    apply strip_by_nil_iff in E'. unfold blank in E. congruence.
Qed.

Lemma tier_lines_nil_iff (resp : response) :
  tier_lines resp = [] <-> blank (text_or_empty resp) = true.
Proof.
  unfold tier_lines.
  now rewrite bullet_lines_nil_iff, splitlines_blank_iff, blank_strip.
Qed.

Lemma list_of_response_lines (resp : response) :
  isinstance_list (getattr_parsed resp) = false ->
  json_is_list B resp = false ->
  list_of_response B resp = Ok (tier_lines resp).
Proof.
  intros Hp Hj. rewrite list_of_response_first_applicable.
  unfold first_applicable_tier. now rewrite Hp, Hj.
Qed.

Lemma lstrip_by_incl (p : N -> bool) (s : pystr) (c : N) :
  In c (lstrip_by p s) -> In c s.
Proof.
  induction s as [|a s IH]; simpl; [tauto|].
  destruct (p a); [intros H; right; now apply IH | tauto].
Qed.

(** A value never starts with a whitespace character. *)
Lemma scan_once_space (fuel : nat) (c : N) (r : pystr) :
  isspace c = true -> is_ws c = false -> scan_once B fuel (c :: r) = None.
Proof.
  intros Hs Hw. destruct fuel as [|f]; [reflexivity|].
  assert (K : forall k, isspace k = false -> (c =? k)%N = false).
  { intros k Hk. destruct (c =? k)%N eqn:E; [|reflexivity].
    apply N.eqb_eq in E. congruence. }
  assert (D : is_digit c = false).
  { destruct (is_digit c) eqn:E; [|reflexivity].
    unfold is_digit, isspace in *.
    repeat rewrite ?orb_true_iff, ?andb_true_iff, ?N.leb_le, ?N.eqb_eq in *.
    lia. }
  cbn [scan_once starts_with lit map list_ascii_of_string N_of_ascii].
  unfold match_number, match_integer.
  rewrite !(N.eqb_sym _ c).
  rewrite !K by reflexivity. rewrite D. reflexivity.
Qed.

(** A blank text is not JSON. *)
Lemma json_is_list_blank (resp : response) :
  blank (text_or_empty resp) = true -> json_is_list B resp = false.
Proof.
  unfold json_is_list, json_loads, text_or_empty.
  destruct (resp_text resp) as [s|]; [|reflexivity].
  replace (if truthy s then s else []) with s by (destruct s; reflexivity).
  intros Hb.
  destruct (starts_with [65279%N] s); [reflexivity|].
  replace (2 * length s + 2) with (S (2 * length s + 1)) by lia.
  destruct (skip_ws s) as [|c r] eqn:E; [reflexivity|].
  rewrite scan_once_space; [reflexivity| |].
  - unfold blank in Hb. rewrite forallb_forall in Hb. apply Hb.
    apply (@lstrip_by_incl is_ws s c). unfold skip_ws in E. rewrite E. now left.
  - unfold skip_ws in E. eapply lstrip_by_head. exact E.
Qed.
End TierLines.

(** X7: when [.parsed] is not a list, a response whose text is missing or
    blank resolves to the empty list, without any error; and when the text
    is not a JSON list either, this is the only way for the resolver to
    return the empty list. *)
Theorem list_of_response_empty_iff_blank (B : builtins) (resp : response)
  (Hp : isinstance_list (getattr_parsed resp) = false) :
  (blank (text_or_empty resp) = true -> list_of_response B resp = Ok [])
  /\ (json_is_list B resp = false -> list_of_response B resp = Ok [] ->
      blank (text_or_empty resp) = true).
Proof.
  split.
  - intros Hb.
    rewrite list_of_response_lines by (try apply json_is_list_blank; assumption).
    f_equal. now apply tier_lines_nil_iff.
  - intros Hj H. rewrite list_of_response_lines in H by assumption.
    injection H as H. now apply tier_lines_nil_iff.
Qed.

Lemma list_of_response_empty_iff_blank_witness :
  (blank (text_or_empty {| resp_parsed := Some PNone; resp_text := None |}) = true ->
   list_of_response sample_builtins
     {| resp_parsed := Some PNone; resp_text := None |} = Ok [])
  /\ (json_is_list sample_builtins
        {| resp_parsed := Some PNone; resp_text := None |} = false ->
      list_of_response sample_builtins
        {| resp_parsed := Some PNone; resp_text := None |} = Ok [] ->
      blank (text_or_empty {| resp_parsed := Some PNone; resp_text := None |}) = true).
Proof.
  apply (@list_of_response_empty_iff_blank sample_builtins
           {| resp_parsed := Some PNone; resp_text := None |}).
  reflexivity.
Defined.

(** X8: when the third tier applies, its entries are all non-empty exactly
    when every line of the trimmed text is either blank or holds a
    character other than the hyphen, the bullet, the space and the tab. *)
Theorem tier_lines_entries_nonempty_iff (B : builtins) (resp : response)
  (Hp : isinstance_list (getattr_parsed resp) = false)
  (Hj : json_is_list B resp = false) :
  exists l,
    list_of_response B resp = Ok l
    /\ (Forall (fun e => truthy e = true) l
        <-> Forall (fun ln => blank ln = true \/ forallb is_bullet ln = false)
              (splitlines (strip (text_or_empty resp)))).
Proof.
  exists (tier_lines resp). split; [now apply list_of_response_lines|].
  unfold tier_lines.
  induction (splitlines (strip (text_or_empty resp))) as [|ln lines IH]; simpl.
  - split; constructor.
  - rewrite truthy_strip.
    destruct (blank ln) eqn:E; simpl.
    + rewrite IH. split; intros H; [constructor; [now left | exact H]|].
      now inversion H.
    + split; intros H; inversion H as [|? ? H1 H2]; subst; constructor.
      * right. unfold strip_chars in H1. rewrite truthy_strip_by in H1.
        now apply negb_true_iff in H1.
      * now apply IH.
      * destruct H1 as [H1|H1]; [congruence|].
        unfold strip_chars. rewrite truthy_strip_by.
        apply negb_true_iff. exact H1.
      * now apply IH.
Qed.

Lemma tier_lines_entries_nonempty_witness :
  exists l,
    list_of_response sample_builtins
      {| resp_parsed := None; resp_text := Some text_bullets_abc |} = Ok l
    /\ (Forall (fun e => truthy e = true) l
        <-> Forall (fun ln => blank ln = true \/ forallb is_bullet ln = false)
              (splitlines (strip text_bullets_abc))).
Proof.
  apply (@tier_lines_entries_nonempty_iff sample_builtins
           {| resp_parsed := None; resp_text := Some text_bullets_abc |});
    reflexivity.
Defined.

(** ** The structured tiers *)

Section StrippedItems.
Variable B : builtins.

Lemma stripped_items_fixed (l : list pystr) :
  Forall (fun e => strip e = e /\ truthy e = true) l ->
  stripped_items B (map PStr l) = l.
Proof.
  induction 1 as [|e l [He Ht] _ IH]; simpl; [reflexivity|].
  now rewrite He, Ht, IH.
Qed.

Lemma stripped_items_entries (items : list pyval) :
  Forall (fun e => strip e = e /\ truthy e = true) (stripped_items B items).
Proof.
  induction items as [|x items IH]; simpl; [constructor|].
  destruct (truthy (strip (py_str B x))) eqn:E; [|exact IH].
  constructor; [|exact IH]. split; [apply strip_idempotent | exact E].
Qed.
End StrippedItems.

(** X9: the list resolved from a list-valued [.parsed], given back as the
    [.parsed] of a response (its items as strings, with any text), resolves
    to itself: a resolved list needs no further cleaning. *)
Theorem list_of_response_parsed_idempotent
  (B : builtins) (resp : response) (items : list pyval) (l : list pystr)
  (text : option pystr)
  (Hp : getattr_parsed resp = PList items)
  (Hl : list_of_response B resp = Ok l) :
  list_of_response B
    {| resp_parsed := Some (PList (map PStr l)); resp_text := text |} = Ok l.
Proof.
  rewrite (list_of_response_parsed B resp Hp) in Hl. injection Hl as <-.
  unfold list_of_response. simpl.
  f_equal. apply stripped_items_fixed, stripped_items_entries.
Qed.

Lemma list_of_response_parsed_idempotent_witness :
  list_of_response sample_builtins
    {| resp_parsed := Some (PList (map PStr [lit "1"; lit "-20"; lit "a"; lit "True"]));
       resp_text := Some (lit "ignored") |}
  = Ok [lit "1"; lit "-20"; lit "a"; lit "True"].
Proof.
  apply (@list_of_response_parsed_idempotent sample_builtins resp_parsed_mixed
           [PInt 1; PInt (-20); PStr (lit " a "); PStr (lit "  "); PBool true]);
    reflexivity.
Defined.

(** ** One backend call *)

(** X10: [gen_response] sends exactly one request, whatever the outcome
    (a failure is raised, never retried); the answer of a reply is trimmed
    (trimming it again changes nothing), and it is empty, so that the
    placeholder is displayed, exactly when the reply text is missing or
    blank. *)
Theorem gen_response_one_request_trimmed_answer
  (c : client) (model question : pystr) (t : trace) :
  let q := {| req_model := model; req_contents := question;
              req_config := CfgGrounding |} in
  let out := gen_response c model question t in
  snd out = t ++ [EvRequest q]
  /\ match c (ncalls t) q with
     | Reply r =>
         exists a, fst out = Ok a /\ strip a = a
                   /\ (a = [] <-> blank (text_or_empty r) = true)
     | Fail d => fst out = Raise (BackendError d)
     end.
Proof.
  intros q out. unfold out, gen_response, bind, generate_content. fold q.
  destruct (c (ncalls t) q) as [r|d]; simpl; split; try reflexivity.
  exists (strip (text_or_empty r)). split; [reflexivity|].
  split; [apply strip_idempotent | apply strip_by_nil_iff].
Qed.

(** ** The progress counter *)

Lemma progress_steps_bounds (total k : nat) :
  k <= total ->
  Forall (fun dn => 1 <= fst dn <= snd dn) (progress_steps total 0 k).
Proof.
  intros L. unfold progress_steps. apply Forall_forall.
  intros [d n] H. apply in_map_iff in H as (j & E & Hj).
  injection E as <- <-. apply in_seq in Hj. simpl. lia.
Qed.

(** X11: for every backend, the runner ends either completed, with
    [done = total], or with the backend error of a pair; the progress
    signals are [1/total], ..., [k/total] with [k <= total], so that the
    division [done / total] is never by zero and never above one. *)
Theorem run_combinations_progress_bounds
  (c : client) (model template : pystr) (X_list Y_list : list pystr)
  (t : trace) :
  let total := length X_list * length Y_list in
  let out := run_combinations c model template X_list Y_list t in
  exists k,
    k <= total
    /\ progress_of (snd out) = progress_of t ++ progress_steps total 0 k
    /\ Forall (fun dn => 1 <= fst dn <= snd dn) (progress_steps total 0 k)
    /\ ((fst out = Ok total /\ k = total)
        \/ (exists d, fst out = Raise (BackendError d) /\ k < total)).
Proof.
  intros total out. unfold out. rewrite run_combinations_steps.
  destruct (first_failure c (ncalls (t ++ [EvProgressBar]))
              (map (pair_request model template)
                 (step_pairs (steps_of (enumerate X_list) (enumerate Y_list)))))
    as [[i d]|] eqn:F.
  - destruct (run_steps_fail c model template total _ 0 _ F)
      as (t' & E & _ & _ & P & L).
    rewrite step_pairs_lists, length_prod in L.
    exists i. fold total. rewrite E. simpl.
    split; [unfold total; lia|].
    split; [rewrite P, progress_of_app; simpl; now rewrite app_nil_r|].
    split; [apply progress_steps_bounds; unfold total; lia|].
    right. exists d. split; [reflexivity | exact L].
  - destruct (run_steps_ok c model template total _ 0 _ F)
      as (t' & E & _ & _ & _ & P).
    rewrite step_pairs_lists, length_prod in E, P.
    exists total. fold total in E, P |- *. rewrite E. simpl.
    split; [lia|].
    split; [rewrite P, progress_of_app; simpl; now rewrite app_nil_r|].
    split; [apply progress_steps_bounds; lia|].
    left. split; reflexivity.
Qed.

(** ** The script before the runner *)

Section ScriptStart.
Variable B : builtins.
Variable backend : client.

Lemma ncalls_requests (t : trace) : ncalls t = length (requests_of t).
Proof.
  induction t as [|e t IH]; simpl; [reflexivity|].
  destruct e; simpl; now rewrite ?IH.
Qed.

(** Resolution sends the two list requests in generated mode, and none in
    manual mode. *)
Lemma resolve_lists_calls (inp : inputs) (t t1 : trace)
  (X_list Y_list : list pystr) :
  resolve_lists B backend inp t = (Ok (X_list, Y_list), t1) ->
  ncalls t1 = ncalls t + resolution_calls (list_mode inp).
Proof.
  unfold resolve_lists.
  destruct (list_mode inp) as [x_topics y_topics | x_manual y_manual].
  - unfold bind at 1.
    destruct (list_gen B backend (model_name inp) x_topics t)
      as [[lx|e|] t2] eqn:Ex; try discriminate.
    unfold bind at 1.
    destruct (list_gen B backend (model_name inp) y_topics t2)
      as [[ly|e|] t3] eqn:Ey; try discriminate.
    unfold ret. intros H. injection H as _ _ <-.
    apply list_gen_trace in Ex, Ey. subst t3 t2.
    rewrite !ncalls_app. simpl. lia.
  - unfold ret. intros H. injection H as _ _ <-. simpl. lia.
Qed.
End ScriptStart.

(** X12: without an API key the script sends nothing to the backend: when
    the start button is pressed it shows the missing-key error and stops;
    when it is not pressed nothing happens. *)
Theorem app_run_missing_key
  (B : builtins) (backend : client) (inp : inputs) (t : trace)
  (Hkey : truthy (api_key inp) = false) :
  app_run B backend inp t
  = (if run inp then (Stop, t ++ [EvErrorNoKey]) else (Ok tt, t))
  /\ requests_of (snd (app_run B backend inp t)) = requests_of t.
Proof.
  unfold app_run. rewrite Hkey.
  destruct (run inp); [|split; reflexivity].
  split; [reflexivity|]. simpl.
  rewrite requests_of_app. simpl. apply app_nil_r.
Qed.

Lemma app_run_missing_key_witness :
  app_run sample_builtins client_ok
    {| api_key := []; model_name := lit "m";
       list_mode := ModeGenerated (lit "three industries") (lit "three topics");
       question_template := lit "X and Y"; run := true |} []
  = (Stop, [EvErrorNoKey])
  /\ requests_of
       (snd (app_run sample_builtins client_ok
               {| api_key := []; model_name := lit "m";
                  list_mode := ModeGenerated (lit "three industries")
                                 (lit "three topics");
                  question_template := lit "X and Y"; run := true |} []))
     = [].
Proof.
  apply (@app_run_missing_key sample_builtins client_ok
           {| api_key := []; model_name := lit "m";
              list_mode := ModeGenerated (lit "three industries")
                             (lit "three topics");
              question_template := lit "X and Y"; run := true |} []).
  reflexivity.
Defined.



Section RequestCount.

Lemma filter_grounding_pair_requests (model template : pystr)
  (pairs : list (pystr * pystr)) :
  filter is_grounding (map (pair_request model template) pairs)
  = map (pair_request model template) pairs.
Proof.
  induction pairs as [|xy pairs IH]; simpl; [reflexivity|]. now rewrite IH.
Qed.
End RequestCount.

(** X14: a script that runs to its end sends, after the requests of the
    resolution (two in generated mode, none in manual mode), exactly one
    request per pair: |X_list| * |Y_list| of them, those of the pairs in
    row-major order. *)
Theorem app_run_request_count
  (B : builtins) (backend : client) (inp : inputs) (t t1 : trace)
  (X_list Y_list : list pystr)
  (Hrun : run inp = true) (Hkey : truthy (api_key inp) = true)
  (Hres : resolve_lists B backend inp t = (Ok (X_list, Y_list), t1))
  (HX : list_truthy X_list = true) (HY : list_truthy Y_list = true)
  (Hok : first_failure backend (ncalls t1)
           (map (pair_request (model_name inp) (question_template inp))
              (list_prod X_list Y_list)) = None) :
  exists t',
    app_run B backend inp t = (Ok tt, t')
    /\ ncalls t'
       = ncalls t + resolution_calls (list_mode inp)
         + length X_list * length Y_list
    /\ pair_calls_of t'
       = pair_calls_of t
         ++ map (pair_request (model_name inp) (question_template inp))
              (list_prod X_list Y_list).
Proof.
  rewrite app_run_after_resolution
    with (t1 := t1) (X_list := X_list) (Y_list := Y_list) by assumption.
  unfold bind at 1. rewrite run_combinations_steps.
  match goal with
  | |- context [run_steps _ _ _ ?n ?l 0 ?u] =>
      destruct (run_steps_ok backend (model_name inp) (question_template inp)
                  n l 0 u) as (t2 & E & _ & _ & Q & _)
  end.
  { rewrite step_pairs_lists, !ncalls_app. cbn. now rewrite !Nat.add_0_r. }
  rewrite E. eexists. split; [reflexivity|].
  rewrite step_pairs_lists in Q.
  destruct (resolve_lists_trace B backend inp t Hres) as (_ & PC & _).
  pose proof (resolve_lists_calls B backend inp t Hres) as NC.
  split.
  - rewrite !ncalls_app. cbn. rewrite !Nat.add_0_r.
    rewrite (ncalls_requests t2), Q, length_app, length_map, length_prod.
    rewrite !requests_of_app. cbn. rewrite !app_nil_r.
    rewrite <- ncalls_requests, NC. reflexivity.
  - unfold pair_calls_of in *. rewrite !requests_of_app. cbn.
    rewrite !app_nil_r, Q, !requests_of_app. cbn. rewrite !app_nil_r.
    rewrite filter_app, PC, filter_grounding_pair_requests. reflexivity.
Qed.

Lemma app_run_request_count_witness :
  exists t',
    app_run sample_builtins client_ok
      (inputs_manual (lit "a" ++ nl ++ lit "b")
         (lit "p" ++ nl ++ lit "q" ++ nl ++ lit "r")) []
    = (Ok tt, t')
    /\ ncalls t' = 0 + 0 + 2 * 3
    /\ pair_calls_of t'
       = [] ++ map (pair_request (lit "gemini-2.5-flash") (lit "In X, about Y"))
                 (list_prod [lit "a"; lit "b"] [lit "p"; lit "q"; lit "r"]).
Proof.
  apply (@app_run_request_count sample_builtins client_ok
           (inputs_manual (lit "a" ++ nl ++ lit "b")
              (lit "p" ++ nl ++ lit "q" ++ nl ++ lit "r")) [] []
           [lit "a"; lit "b"] [lit "p"; lit "q"; lit "r"]);
    reflexivity.
Defined.

(** ** The copy buttons *)

Section CopyUid.

Lemma uint_digits_inj (u v : Decimal.uint) :
  uint_digits u = uint_digits v -> u = v.
Proof.
  revert v. induction u; destruct v; simpl; intros H;
    try discriminate; try reflexivity;
    injection H as H; f_equal; now apply IHu.
Qed.

Lemma uint_digits_are_digits (u : Decimal.uint) :
  Forall (fun c => is_digit c = true) (uint_digits u).
Proof. induction u; simpl; constructor; try reflexivity; assumption. Qed.

Lemma str_of_nat_digits (n : nat) :
  str_of_int (Z.of_nat n) = uint_digits (N.to_uint (N.of_nat n)).
Proof.
  unfold str_of_int.
  destruct (Z.of_nat n <? 0)%Z eqn:E; [apply Z.ltb_lt in E; lia|].
  now rewrite <- nat_N_Z, N2Z.id.
Qed.

Lemma str_of_nat_inj (n m : nat) :
  str_of_int (Z.of_nat n) = str_of_int (Z.of_nat m) -> n = m.
Proof.
  rewrite !str_of_nat_digits. intros H.
  apply uint_digits_inj, DecimalN.Unsigned.to_uint_inj in H.
  now apply Nat2N.inj.
Qed.

(** Two strings of digits followed by an underscore and anything: the
    digits and the rest are determined by the whole. *)
Lemma digits_underscore_inj (d1 d2 e1 e2 : pystr) :
  Forall (fun c => is_digit c = true) d1 ->
  Forall (fun c => is_digit c = true) d2 ->
  d1 ++ 95%N :: e1 = d2 ++ 95%N :: e2 -> d1 = d2 /\ e1 = e2.
Proof.
  intros H1. revert d2.
  induction H1 as [|a d1 Ha _ IH]; intros d2 H2 E.
  - destruct H2 as [|b d2 Hb _]; simpl in E.
    + injection E as <-. now split.
    + injection E as <- _. discriminate Hb.
  - destruct H2 as [|b d2 Hb H2]; simpl in E.
    + injection E as -> _. discriminate Ha.
    + injection E as <- E. destruct (IH d2 H2 E) as [<- <-]. now split.
Qed.

(** The identifier determines the two indices. *)
Lemma copy_uid_inj (xi yi xi' yi' : nat) :
  copy_uid xi yi = copy_uid xi' yi' -> xi = xi' /\ yi = yi'.
Proof.
  unfold copy_uid. intros H. apply app_inv_head in H.
  change (lit "_" ++ ?r) with (95%N :: r) in H.
  cbn [lit map list_ascii_of_string N_of_ascii app] in H.
  apply digits_underscore_inj in H as [Hx Hy];
    try (rewrite str_of_nat_digits; apply uint_digits_are_digits).
  split; now apply str_of_nat_inj.
Qed.

Lemma NoDup_map_inj {A C} (f : A -> C) (l : list A) :
  (forall a b, f a = f b -> a = b) -> NoDup l -> NoDup (map f l).
Proof.
  intros Hf. induction 1 as [|a l Ha _ IH]; simpl; constructor; [|exact IH].
  intros Hin. apply in_map_iff in Hin as (b & E & Hb).
  apply Hf in E. subst b. contradiction.
Qed.

Lemma NoDup_firstn {A} (k : nat) (l : list A) : NoDup l -> NoDup (firstn k l).
Proof.
  intros H. revert k. induction H as [|a l Ha _ IH]; intros [|k]; simpl;
    try constructor; [|apply IH].
  intros Hin. apply Ha. rewrite <- (firstn_skipn k l). apply in_or_app. now left.
Qed.

Lemma NoDup_list_prod {A C} (l : list A) (l' : list C) :
  NoDup l -> NoDup l' -> NoDup (list_prod l l').
Proof.
  intros H H'. induction H as [|a l Ha _ IH]; simpl; [constructor|].
  apply NoDup_app.
  - apply NoDup_map_inj; [|exact H']. intros b b' E. now injection E.
  - exact IH.
  - intros [a' b'] Hin1 Hin2. apply in_map_iff in Hin1 as (b & E & _).
    injection E as <- <-. apply in_prod_iff in Hin2 as [Hin2 _]. contradiction.
Qed.
End CopyUid.

Section RunStepsIds.
Variable c : client.
Variables model template : pystr.
Variable total : nat.

(** Whatever the backend does, the results rendered are those of the
    first steps, in order. *)
Lemma run_steps_ids (l : list step) (done : nat) (t : trace) :
  exists k,
    result_ids_of (snd (run_steps c model template total l done t))
    = result_ids_of t ++ firstn k (step_ids l).
Proof.
  revert done t.
  induction l as [|s l IH]; intros done t.
  - exists 0. simpl. now rewrite app_nil_r.
  - destruct s as [x_word | xi yi x_word y_word].
    + rewrite heading_step. destruct (IH done (t ++ [EvHeadingX x_word])) as (k & E).
      exists k. rewrite E, result_ids_of_app. simpl. now rewrite app_nil_r.
    + destruct (c (ncalls t) (pair_request model template (x_word, y_word)))
        as [r|d] eqn:Hc.
      * rewrite pair_step_reply with (r := r) by exact Hc.
        match goal with
        | |- context [run_steps _ _ _ _ l (S done) ?u] =>
            destruct (IH (S done) u) as (k & E)
        end.
        exists (S k). rewrite E, !result_ids_of_app. simpl.
        now rewrite !app_nil_r, <- app_assoc.
      * rewrite pair_step_fail with (d := d) by exact Hc.
        exists 0. simpl. rewrite result_ids_of_app. simpl. now rewrite !app_nil_r.
Qed.
End RunStepsIds.

(** X15: for every backend, the copy buttons rendered by a run have
    pairwise distinct identifiers [copy_xi_yi]. *)
Theorem copy_uids_distinct
  (c : client) (model template : pystr) (X_list Y_list : list pystr)
  (t : trace) :
  exists ids,
    result_ids_of (snd (run_combinations c model template X_list Y_list t))
    = result_ids_of t ++ ids
    /\ NoDup (map (fun ij => copy_uid (fst ij) (snd ij)) ids).
Proof.
  rewrite run_combinations_steps.
  destruct (run_steps_ids c model template (length X_list * length Y_list)
              (steps_of (enumerate X_list) (enumerate Y_list)) 0
              (t ++ [EvProgressBar])) as (k & E).
  rewrite step_ids_lists, result_ids_of_app in E. simpl in E.
  rewrite app_nil_r in E.
  eexists. split; [exact E|].
  apply NoDup_map_inj.
  - intros [a b] [a' b'] H. simpl in H.
    apply copy_uid_inj in H as [-> ->]. reflexivity.
  - apply NoDup_firstn, NoDup_list_prod; apply seq_NoDup.
Qed.

(** ** The clipboard payload *)

Section Payload.
Variable B : builtins.

Lemma hex4_escape (c : N) :
  (c <? 32)%N = true ->
  hex4 (hex_char (c / 4096)) (hex_char ((c / 256) mod 16))
       (hex_char ((c / 16) mod 16)) (hex_char (c mod 16)) = Some c.
Proof.
  intros H. apply N.ltb_lt in H.
  assert (K : forallb
                (fun n => match hex4 (hex_char (n / 4096))
                                  (hex_char ((n / 256) mod 16))
                                  (hex_char ((n / 16) mod 16))
                                  (hex_char (n mod 16)) with
                          | Some m => (m =? n)%N
                          | None => false
                          end)
                (map N.of_nat (seq 0 32)) = true) by reflexivity.
  rewrite forallb_forall in K.
  specialize (K c).
  destruct (hex4 _ _ _ _) as [m|].
  - f_equal. apply N.eqb_eq. apply K.
    apply in_map_iff. exists (N.to_nat c). split; [apply N2Nat.id|].
    apply in_seq. lia.
  - assert (false = true); [|discriminate].
    apply K. apply in_map_iff. exists (N.to_nat c). split; [apply N2Nat.id|].
    apply in_seq. lia.
Qed.

(** Scanning the escaped form of a string gives the string back. *)
Lemma scanstring_escape (s acc rest : pystr) :
  scanstring acc (flat_map escape_char s ++ 34%N :: rest)
  = Some (rev acc ++ s, rest).
Proof.
  revert acc.
  induction s as [|c s IH]; intros acc.
  - simpl. now rewrite app_nil_r.
  - cbn [flat_map]. rewrite <- app_assoc.
    assert (Hnext : scanstring (c :: acc) (flat_map escape_char s ++ 34%N :: rest)
                    = Some (rev acc ++ c :: s, rest)).
    { rewrite IH. simpl. now rewrite <- app_assoc. }
    unfold escape_char.
    destruct (c =? 92)%N eqn:E1; [apply N.eqb_eq in E1; subst c; exact Hnext|].
    destruct (c =? 34)%N eqn:E2; [apply N.eqb_eq in E2; subst c; exact Hnext|].
    destruct (c =? 8)%N eqn:E3; [apply N.eqb_eq in E3; subst c; exact Hnext|].
    destruct (c =? 12)%N eqn:E4; [apply N.eqb_eq in E4; subst c; exact Hnext|].
    destruct (c =? 10)%N eqn:E5; [apply N.eqb_eq in E5; subst c; exact Hnext|].
    destruct (c =? 13)%N eqn:E6; [apply N.eqb_eq in E6; subst c; exact Hnext|].
    destruct (c =? 9)%N eqn:E7; [apply N.eqb_eq in E7; subst c; exact Hnext|].
    destruct (c <? 32)%N eqn:E8.
    + cbn [app scanstring N.eqb N.ltb N.compare Pos.compare Pos.compare_cont
             Pos.eqb negb].
      rewrite (hex4_escape c E8).
      assert (Hs : is_high_surrogate c = false).
      { unfold is_high_surrogate. apply N.ltb_lt in E8.
        apply andb_false_iff. left. apply N.leb_gt. lia. }
      rewrite Hs. exact Hnext.
    + cbn [app scanstring]. rewrite E2, E8, E1. exact Hnext.
Qed.
End Payload.

(** X16: the clipboard payload is a JSON document that decodes to exactly
    the answer: [json.loads(json.dumps(s, ensure_ascii=False)) = s] for
    every string, whatever quotes, backslashes, line breaks or control
    characters it holds. *)
Theorem copy_payload_round_trip (B : builtins) (answer : pystr) :
  json_loads B (Some (copy_payload answer)) = Ok (PStr answer).
Proof.
  unfold copy_payload.
  replace (if truthy answer then answer else []) with answer
    by (destruct answer; reflexivity).
  unfold json_loads, json_dumps_str.
  cbn [starts_with N.eqb Pos.eqb andb skip_ws lstrip_by is_ws orb].
  replace (2 * length (34%N :: flat_map escape_char answer ++ [34%N]) + 2)
    with (S (2 * length (34%N :: flat_map escape_char answer ++ [34%N]) + 1))
    by lia.
  cbn [scan_once N.eqb Pos.eqb].
  rewrite scanstring_escape. reflexivity.
Qed.

Lemma hex_char_printable (n : N) : (32 <=? hex_char n)%N = true.
Proof. unfold hex_char. destruct (n <? 10)%N; apply N.leb_le; lia. Qed.

(** X17: the payload holds no control character (nothing below U+0020):
    it is written on one line of the script, between two double quotes. *)
Theorem copy_payload_no_control_character (answer : pystr) :
  Forall (fun c => (32 <=? c)%N = true) (copy_payload answer)
  /\ hd_error (copy_payload answer) = Some 34%N
  /\ last (copy_payload answer) 0%N = 34%N.
Proof.
  unfold copy_payload, json_dumps_str.
  set (s := if truthy answer then answer else []).
  split; [|split; [reflexivity | ]].
  - constructor; [reflexivity|]. apply Forall_app. split; [|now constructor].
    apply Forall_flat_map, Forall_forall. intros c _.
    unfold escape_char.
    repeat match goal with
           | |- context [if ?b then _ else _] => destruct b eqn:?
           end;
      repeat (constructor; try reflexivity).
    + apply hex_char_printable.
    + apply hex_char_printable.
    + apply hex_char_printable.
    + apply hex_char_printable.
    + apply N.leb_le. apply N.ltb_ge. assumption.
  - change (34%N :: flat_map escape_char s ++ [34%N])
      with ((34%N :: flat_map escape_char s) ++ [34%N]).
    apply last_last.
Qed.

(** X18: an answer without control character, double quote and backslash
    is copied into the script as it is, between the two quotes: nothing
    else is escaped, the characters of an HTML closing tag included. *)
Theorem copy_payload_plain (answer : pystr)
  (Hplain : forallb (fun c => (32 <=? c)%N && negb (c =? 34)%N && negb (c =? 92)%N)
              answer = true) :
  copy_payload answer = 34%N :: answer ++ [34%N].
Proof.
  unfold copy_payload, json_dumps_str.
  replace (if truthy answer then answer else []) with answer
    by (destruct answer; reflexivity).
  f_equal. f_equal. apply flat_map_id_when.
  intros c Hc. rewrite forallb_forall in Hplain. specialize (Hplain c Hc).
  apply andb_prop in Hplain as [Hp H92]. apply andb_prop in Hp as [H32 H34].
  apply negb_true_iff in H92, H34. apply N.leb_le in H32.
  unfold escape_char. rewrite H92, H34.
  destruct (c =? 8)%N eqn:E; [apply N.eqb_eq in E; lia|].
  destruct (c =? 12)%N eqn:E0; [apply N.eqb_eq in E0; lia|].
  destruct (c =? 10)%N eqn:E1; [apply N.eqb_eq in E1; lia|].
  destruct (c =? 13)%N eqn:E2; [apply N.eqb_eq in E2; lia|].
  destruct (c =? 9)%N eqn:E3; [apply N.eqb_eq in E3; lia|].
  destruct (c <? 32)%N eqn:E4; [apply N.ltb_lt in E4; lia|].
  reflexivity.
Qed.

Lemma copy_payload_plain_witness :
  copy_payload (lit "a</script>b") = 34%N :: lit "a</script>b" ++ [34%N].
Proof. apply copy_payload_plain. reflexivity. Defined.

(** ** The guard in manual mode *)

Section ManualGuard.
Variable B : builtins.
Variable backend : client.

Lemma manual_list_truthy (text : pystr) :
  list_truthy (manual_list text) = negb (blank text).
Proof.
  unfold manual_list.
  destruct (blank text) eqn:E.
  - apply splitlines_blank_iff, stripped_lines_nil_iff in E. now rewrite E.
  - destruct (stripped_lines (splitlines text)) eqn:E'; [|reflexivity].
    apply stripped_lines_nil_iff, splitlines_blank_iff in E'. congruence.
Qed.

(** The runner never ends with [st.stop()]. *)
Lemma run_combinations_not_stop (model template : pystr)
  (X_list Y_list : list pystr) (t : trace) :
  fst (run_combinations backend model template X_list Y_list t) <> Stop.
Proof.
  rewrite run_combinations_steps.
  destruct (first_failure backend (ncalls (t ++ [EvProgressBar]))
              (map (pair_request model template)
                 (step_pairs (steps_of (enumerate X_list) (enumerate Y_list)))))
    as [[i d]|] eqn:F.
  - destruct (run_steps_fail backend model template
                (length X_list * length Y_list) _ 0 _ F) as (t' & E & _).
    rewrite E. discriminate.
  - destruct (run_steps_ok backend model template
                (length X_list * length Y_list) _ 0 _ F) as (t' & E & _).
    rewrite E. discriminate.
Qed.
End ManualGuard.

(** X19: in manual mode the guard stops the script, with the warning and
    without any backend request, exactly when one of the two text areas is
    blank; otherwise the runner is started and the script does not end
    with [st.stop()]. *)
Theorem app_run_manual_guard
  (B : builtins) (backend : client) (inp : inputs) (t : trace)
  (x_manual y_manual : pystr)
  (Hrun : run inp = true) (Hkey : truthy (api_key inp) = true)
  (Hmode : list_mode inp = ModeManual x_manual y_manual) :
  (blank x_manual || blank y_manual = true ->
   app_run B backend inp t = (Stop, t ++ [EvWarningEmptyList]))
  /\ (blank x_manual || blank y_manual = false ->
      fst (app_run B backend inp t) <> Stop).
Proof.
  assert (Hres : resolve_lists B backend inp t
                 = (Ok (manual_list x_manual, manual_list y_manual), t)).
  { unfold resolve_lists. now rewrite Hmode. }
  split; intros Hb.
  - apply app_run_guard_stops
      with (X_list := manual_list x_manual) (Y_list := manual_list y_manual);
      try assumption.
    now rewrite !manual_list_truthy, !negb_involutive.
  - apply orb_false_iff in Hb as [Hx Hy].
    rewrite app_run_after_resolution
      with (t1 := t) (X_list := manual_list x_manual)
           (Y_list := manual_list y_manual);
      try assumption;
      try (rewrite manual_list_truthy; now apply negb_true_iff).
    unfold bind at 1.
    match goal with
    | |- context [run_combinations ?c ?m ?q ?X ?Y ?u] =>
        pose proof (run_combinations_not_stop c m q X Y u) as NS;
        destruct (run_combinations c m q X Y u) as [[d|e|] t2]
    end; simpl in *; [discriminate | discriminate | congruence].
Qed.

Lemma app_run_manual_guard_witness :
  (blank (lit "  ") || blank (lit "p") = true ->
   app_run sample_builtins client_ok (inputs_manual (lit "  ") (lit "p")) []
   = (Stop, [] ++ [EvWarningEmptyList]))
  /\ (blank (lit "  ") || blank (lit "p") = false ->
      fst (app_run sample_builtins client_ok
             (inputs_manual (lit "  ") (lit "p")) []) <> Stop).
Proof.
  apply (@app_run_manual_guard sample_builtins client_ok
           (inputs_manual (lit "  ") (lit "p")) [] (lit "  ") (lit "p"));
    reflexivity.
Defined.

(** ** A backend failure in the script *)

Lemma app_run_backend_failure_witness :
  exists t',
    app_run sample_builtins client_fails_fourth
      (inputs_manual (lit "a" ++ nl ++ lit "b")
         (lit "p" ++ nl ++ lit "q" ++ nl ++ lit "r")) []
    = (Raise (BackendError (lit "quota")), t')
    /\ results_of t'
       = results_of []
         ++ results_from client_fails_fourth (lit "gemini-2.5-flash")
              (lit "In X, about Y") 0
              (firstn 3 (list_prod [lit "a"; lit "b"]
                           [lit "p"; lit "q"; lit "r"])).
Proof.
  apply (@app_run_backend_failure sample_builtins client_fails_fourth
           (inputs_manual (lit "a" ++ nl ++ lit "b")
              (lit "p" ++ nl ++ lit "q" ++ nl ++ lit "r")) [] []
           [lit "a"; lit "b"] [lit "p"; lit "q"; lit "r"] 3 (lit "quota"));
    reflexivity.
Defined.
